(** * KvaserLib: CANopen SDO client and CiA402 drive sequencing

    A shallow embedding of [KvaserLib.py].  The CAN channel, the wall clock
    and the console are the only effects of the program; they are gathered in
    a [World] that every function threads through.  Python exceptions that
    can leave a function are carried by [result].

    Line 2 of the file, [from canlib import canlib, Frame], binds the name
    [canlib] to the submodule [canlib.canlib].  That module has [CanNoMsg]
    but no [CanlibException]: a handler [except canlib.CanlibException]
    raises [AttributeError] when Python evaluates its expression, which it
    does whenever an exception reaches the handler.  The body of such a
    handler never runs. *)

From Stdlib Require Import ZArith List Bool String Lia.
Import ListNotations.
Open Scope Z_scope.

(** ** Frames and the transport *)

(** [canlib.Frame]: identifier, data bytes and flags. *)
Record Frame := mkFrame { id : Z; data : list Z; flags : Z }.

(** [canlib.canMSG_STD]. *)
Definition canMSG_STD : Z := 0x0002.

(** Python exceptions that leave a function of the library. *)
Inductive exn := TypeError | ValueError | AttributeError.

Inductive result (A : Type) :=
| Ok (a : A)
| Raise (e : exn).
Arguments Ok {A} a.
Arguments Raise {A} e.

(** [Frame(id_=..., data=[...], flags=...)] stores [bytearray(data)], and
    [bytearray] of a list of integers raises [ValueError] unless every entry
    is in [range(256)]. *)
Definition is_byte (b : Z) : bool := (0 <=? b) && (b <? 256).

Definition Frame_new (id_ : Z) (data_ : list Z) (flags_ : Z) : result Frame :=
  if forallb is_byte data_ then Ok (mkFrame id_ data_ flags_)
  else Raise ValueError.

(** What one call of [channel.read(timeout=1000)] does: it hands over a
    frame, raises [canlib.CanNoMsg], or raises another exception of the
    library, one that the handlers mean by [CanlibException]. *)
Inductive RxOutcome :=
| RxFrame (f : Frame)
| CanNoMsg
| CanlibException.

(** One call of [channel.read], with the time in milliseconds it took. *)
Record RxEvent := mkRx { rx_wait : N; rx_outcome : RxOutcome }.

(** One call of [channel.write]: the frame handed over and whether the
    driver took it ([false]: it raised an exception of the library). *)
Record TxEntry := mkTx { tx_frame : Frame; tx_ok : bool }.

(** Every [print] of the library, with the values it interpolates. *)
Inductive Msg :=
| SentSdoRead (index subindex : Z)
| ReceivedData (value : Z)
| ErrorReadingSdoResponse
| FailedToSendSdoRead
| TimeoutWaitingForSdoResponse
| SentSdoWrite (index subindex value : Z)
| FailedToSendSdoWrite
| EnableNotPossibleFaultReactionActive
| DisableNotPossibleFaultReactionActive
| IssuingFaultReset
| PendingFaultNotCleared
| Issuing (description : string)
| DriveEnabledSuccessfully
| IssuingDisableVoltage
| WrongStatusWord
| DriveDisabledSuccessfully
| SettingModeOfOperation (mode : Z)
| SettingSpeed (speed : Z)
| MovingFor (seconds : Z)
| FetchingCanMessages (seconds : Z)
| ReceivedHeartbeat (node : Z)
| ErrorFetchingMessage
| TotalHeartbeats (count : Z).

(** The world around the library.
    - [clock]: what [time.time()] returns, in milliseconds;
    - [rx]: the outcomes of the coming [channel.read] calls, in order; once
      they are used up the bus is silent and every read raises [CanNoMsg]
      after its full timeout of 1000 ms;
    - [tx_fail]: whether the coming [channel.write] calls raise an exception
      of the library, in order (none left: the write succeeds);
    - [tx_log]: the calls of [channel.write] so far, oldest first;
    - [out]: the lines printed so far, oldest first. *)
Record World := mkWorld {
  clock : Z;
  rx : list RxEvent;
  tx_fail : list bool;
  tx_log : list TxEntry;
  out : list Msg
}.

(** The frames handed to [channel.write] so far, taken or not. *)
Definition frames (w : World) : list Frame := map tx_frame (tx_log w).

(** ** A state and exception monad *)

Definition M (A : Type) : Type := World -> World * result A.

Definition ret {A} (a : A) : M A := fun w => (w, Ok a).

Definition raise {A} (e : exn) : M A := fun w => (w, Raise e).

Definition bind {A B} (m : M A) (k : A -> M B) : M B :=
  fun w =>
    match m w with
    | (w', Ok a) => k a w'
    | (w', Raise e) => (w', Raise e)
    end.

Declare Scope py_scope.
Delimit Scope py_scope with py.
Notation "x <- m ;; k" := (bind m (fun x => k))
  (at level 61, m at next level, right associativity) : py_scope.
Notation "m ;; k" := (bind m (fun _ => k))
  (at level 61, right associativity) : py_scope.
Open Scope py_scope.

(** [if c: body]. *)
Definition when (c : bool) (body : M unit) : M unit :=
  if c then body else ret tt.

(** [for x in l: body]. *)
Fixpoint for_each {A} (l : list A) (body : A -> M unit) : M unit :=
  match l with
  | [] => ret tt
  | x :: l' => body x ;; for_each l' body
  end.

Definition print (m : Msg) : M unit :=
  fun w => (mkWorld (clock w) (rx w) (tx_fail w) (tx_log w) (out w ++ [m]), Ok tt).

(** [except canlib.CanlibException as e: handler], reached by an exception
    of the library: the expression [canlib.CanlibException] does not
    resolve, so [AttributeError] is raised in place of running [handler]. *)
Definition except_canlib_CanlibException {A} (handler : M A) : M A :=
  raise AttributeError.

(** [time.sleep(seconds)]. *)
Definition sleep (seconds : Z) : M unit :=
  fun w => (mkWorld (clock w + 1000 * seconds) (rx w) (tx_fail w) (tx_log w) (out w), Ok tt).

(** [channel.write(frame)]; the result is [false] when it raised an
    exception of the library, which every caller means to catch. *)
Definition channel_write (frame : Frame) : M bool :=
  fun w =>
    let failed := hd false (tx_fail w) in
    (mkWorld (clock w) (rx w) (tl (tx_fail w))
             (tx_log w ++ [mkTx frame (negb failed)]) (out w),
     Ok (negb failed)).

(** ** Python values *)

(** [int.from_bytes(bs, byteorder='little')]. *)
Fixpoint int_from_bytes_little (bs : list Z) : Z :=
  match bs with
  | [] => 0
  | b :: bs' => b + 256 * int_from_bytes_little bs'
  end.

(** [x & mask] where [x] may be [None]: Python raises [TypeError] then. *)
Definition py_and (x : option Z) (mask : Z) : M Z :=
  match x with
  | Some v => ret (Z.land v mask)
  | None => raise TypeError
  end.

(** [x != y] where [x] may be [None]: [None] differs from every integer. *)
Definition py_ne (x : option Z) (y : Z) : bool :=
  match x with
  | Some v => negb (v =? y)
  | None => true
  end.

(** ** SDO client *)

(** The state of a polling loop when it is left. *)
Record Poll := mkPoll {
  p_clock : Z;
  p_rx : list RxEvent;
  p_out : list Msg;
  p_result : result (option Z)
}.

(** A silent bus: [channel.read] raises [CanNoMsg] after 1000 ms, again and
    again, until the loop condition [time.time() < end_time] fails.  The
    result is the clock at that moment. *)
Fixpoint idle_until (n : nat) (now end_time : Z) : Z :=
  match n with
  | O => now
  | S n' =>
      if now <? end_time then idle_until n' (now + 1000) end_time else now
  end.

(** The [while time.time() < end_time] loop of [sdo_read_access].  An
    exception of [channel.read] other than [CanNoMsg] passes the first
    handler and reaches [except canlib.CanlibException] at line 37, and
    then the one at line 40: [AttributeError] leaves the function, and
    neither "Error reading SDO response" nor the [break] is reached. *)
Fixpoint sdo_poll (evs : list RxEvent) (now end_time cob_id : Z) : Poll :=
  match evs with
  | [] =>
      mkPoll (idle_until (Z.to_nat (end_time - now)) now end_time) [] []
             (Ok None)
  | ev :: evs' =>
      if now <? end_time then
        let now' := now + Z.of_N (rx_wait ev) in
        match rx_outcome ev with
        | RxFrame response =>
            if id response =? cob_id - 0x80 then
              let value := int_from_bytes_little (skipn 4 (data response)) in
              mkPoll now' evs' [ReceivedData value] (Ok (Some value))
            else sdo_poll evs' now' end_time cob_id
        | CanNoMsg => sdo_poll evs' now' end_time cob_id
        | CanlibException => mkPoll now' evs' [] (Raise AttributeError)
        end
      else mkPoll now evs [] (Ok None)
  end.

Definition sdo_read_access (node_id index subindex timeout_ms : Z)
  : M (option Z) :=
  fun w =>
    let cob_id := 0x600 + node_id in
    let sdo_command := 0x40 in
    let sdo_data :=
      [sdo_command; Z.land index 0xFF; Z.land (Z.shiftr index 8) 0xFF;
       subindex; 0; 0; 0; 0] in
    match Frame_new cob_id sdo_data canMSG_STD with
    | Raise e => (w, Raise e)
    | Ok frame =>
        match channel_write frame w with
        | (w1, Ok true) =>
            (* end_time = time.time() + (timeout_ms / 1000), in ms *)
            let end_time := clock w1 + timeout_ms in
            let p := sdo_poll (rx w1) (clock w1) end_time cob_id in
            let w2 :=
              mkWorld (p_clock p) (p_rx p) (tx_fail w1) (tx_log w1)
                      (out w1 ++ SentSdoRead index subindex :: p_out p) in
            match p_result p with
            | Ok (Some value) => (w2, Ok (Some value))
            | Ok None =>
                (print TimeoutWaitingForSdoResponse ;; ret None) w2
            | Raise e => (w2, Raise e)
            end
        | (w1, _) =>
            except_canlib_CanlibException
              (print FailedToSendSdoRead ;;
               print TimeoutWaitingForSdoResponse ;;
               ret None) w1
        end
    end.

Definition sdo_write_access (node_id index subindex value timeout_ms : Z)
  : M unit :=
  let cob_id := 0x600 + node_id in
  let sdo_command := 0x2B in
  let sdo_data :=
    [sdo_command; Z.land index 0xFF; Z.land (Z.shiftr index 8) 0xFF;
     subindex; Z.land value 0xFF; Z.land (Z.shiftr value 8) 0xFF; 0; 0] in
  match Frame_new cob_id sdo_data canMSG_STD with
  | Raise e => raise e
  | Ok frame =>
      sent <- channel_write frame ;;
      if sent : bool then print (SentSdoWrite index subindex value)
      else except_canlib_CanlibException (print FailedToSendSdoWrite)
  end.

(** ** Drive state machine *)

Definition enable_drive (node_id timeout_ms : Z) : M unit :=
  let sleep_time_after_transmission := 1 in
  read_data <- sdo_read_access node_id 0x6041 0x00 timeout_ms ;;
  match read_data with
  | Some v =>
      if Z.land v 0x0000004F =? 0x0000000F then
        print EnableNotPossibleFaultReactionActive
      else if Z.land v 0x0000004F =? 0x00000008 then
        print IssuingFaultReset ;;
        sdo_write_access node_id 0x6040 0x00 0x80 timeout_ms ;;
        sleep sleep_time_after_transmission ;;
        read_data <- sdo_read_access node_id 0x6041 0x00 timeout_ms ;;
        masked <- py_and read_data 0x0000004F ;;
        when (negb (masked =? 0x00000040)) (print PendingFaultNotCleared)
      else ret tt
  | None => ret tt
  end ;;
  let commands :=
    [(0x00, "disable voltage command"%string);
     (0x06, "shutdown command"%string);
     (0x07, "switch on command"%string);
     (0x0F, "switch on and enable command"%string)] in
  for_each commands (fun '(command, description) =>
    print (Issuing description) ;;
    sdo_write_access node_id 0x6040 0x00 command timeout_ms ;;
    sleep sleep_time_after_transmission ;;
    read_data <- sdo_read_access node_id 0x6041 0x00 timeout_ms ;;
    ret tt) ;;
  print DriveEnabledSuccessfully.

Definition disable_drive (node_id timeout_ms : Z) : M unit :=
  let sleep_time_after_transmission := 1 in
  read_data <- sdo_read_access node_id 0x6041 0x00 timeout_ms ;;
  match read_data with
  | Some v =>
      if Z.land v 0x0000004F =? 0x0000000F then
        print DisableNotPossibleFaultReactionActive
      else if Z.land v 0x0000004F =? 0x00000008 then
        print IssuingFaultReset ;;
        sdo_write_access node_id 0x6040 0x00 0x80 timeout_ms ;;
        sleep sleep_time_after_transmission ;;
        read_data <- sdo_read_access node_id 0x6041 0x00 timeout_ms ;;
        masked <- py_and read_data 0x0000004F ;;
        when (negb (masked =? 0x00000040)) (print PendingFaultNotCleared)
      else ret tt
  | None => ret tt
  end ;;
  print IssuingDisableVoltage ;;
  sdo_write_access node_id 0x6040 0x00 0x00 timeout_ms ;;
  sleep sleep_time_after_transmission ;;
  read_data <- sdo_read_access node_id 0x6041 0x00 timeout_ms ;;
  when (match read_data with
        | Some v => negb (Z.land v 0x0000004F =? 0x00000040)
        | None => false
        end)
       (print WrongStatusWord) ;;
  sleep sleep_time_after_transmission ;;
  print DriveDisabledSuccessfully.

(** ** Heartbeat monitor *)

(** The state of the loop of [fetch_telegrams] when it is left. *)
Record Fetch := mkFetch {
  f_clock : Z;
  f_rx : list RxEvent;
  f_out : list Msg;
  f_count : Z;
  f_result : result unit
}.

Definition fetch_say (m : Msg) (r : Fetch) : Fetch :=
  mkFetch (f_clock r) (f_rx r) (m :: f_out r) (f_count r) (f_result r).

(** The [while time.time() < end_time] loop of [fetch_telegrams];
    [received_heartbeat_count] is the accumulator.  An exception of
    [channel.read] other than [CanNoMsg] reaches
    [except canlib.CanlibException] at line 230: [AttributeError] leaves the
    function and "Error fetching message" is never printed. *)
Fixpoint fetch_loop (evs : list RxEvent) (now end_time : Z)
    (received_heartbeat_count : Z) : Fetch :=
  match evs with
  | [] =>
      mkFetch (idle_until (Z.to_nat (end_time - now)) now end_time) [] []
              received_heartbeat_count (Ok tt)
  | ev :: evs' =>
      if now <? end_time then
        let now' := now + Z.of_N (rx_wait ev) in
        match rx_outcome ev with
        | RxFrame frame =>
            if id frame =? 0x700 + 127 then
              fetch_say (ReceivedHeartbeat (id frame - 0x700))
                (fetch_loop evs' now' end_time (received_heartbeat_count + 1))
            else fetch_loop evs' now' end_time received_heartbeat_count
        | CanNoMsg => fetch_loop evs' now' end_time received_heartbeat_count
        | CanlibException =>
            mkFetch now' evs' [] received_heartbeat_count
                    (Raise AttributeError)
        end
      else mkFetch now evs [] received_heartbeat_count (Ok tt)
  end.

(** The function has no [return]: its value is [None]. *)
Definition fetch_telegrams (duration_seconds : Z) : M unit :=
  fun w =>
    let end_time := clock w + 1000 * duration_seconds in
    let received_heartbeat_count := 0 in
    let r := fetch_loop (rx w) (clock w) end_time received_heartbeat_count in
    let w1 :=
      mkWorld (f_clock r) (f_rx r) (tx_fail w) (tx_log w)
              (out w ++ FetchingCanMessages duration_seconds :: f_out r) in
    match f_result r with
    | Ok _ => print (TotalHeartbeats (f_count r)) w1
    | Raise e => (w1, Raise e)
    end.

(** ** Motion controller *)

Definition set_cia402_mode_of_operation (node_id mode timeout_ms : Z) : M unit :=
  print (SettingModeOfOperation mode) ;;
  sdo_write_access node_id 0x6060 0x00 mode timeout_ms.

(** Lines 171-179 of [move_motor_in_profile_velocity]: the ramps are
    rewritten when a read differs from the request. *)
Definition move_ramps (node_id accel decel timeout_ms : Z) : M unit :=
  current_accel <- sdo_read_access node_id 0x6083 0x00 timeout_ms ;;
  current_decel <- sdo_read_access node_id 0x6084 0x00 timeout_ms ;;
  when (py_ne current_accel accel || py_ne current_decel decel)
    (disable_drive node_id timeout_ms ;;
     sdo_write_access node_id 0x6083 0x00 accel timeout_ms ;;
     sdo_write_access node_id 0x6084 0x00 decel timeout_ms).

(** Lines 181-186: the mode is set when the drive displays another one. *)
Definition move_mode (node_id timeout_ms : Z) : M unit :=
  mode_of_operation <- sdo_read_access node_id 0x6061 0x00 timeout_ms ;;
  when (py_ne mode_of_operation 3)
    (disable_drive node_id timeout_ms ;;
     set_cia402_mode_of_operation node_id 3 timeout_ms ;;
     enable_drive node_id timeout_ms).

(** Lines 193-204: setpoint, observation window, optional disable. *)
Definition move_setpoint (node_id speed : Z) (disable_after_motion : bool)
    (movement_duration timeout_ms : Z) : M unit :=
  print (SettingSpeed speed) ;;
  sdo_write_access node_id 0x60FF 0x00 speed timeout_ms ;;
  when (movement_duration >? 0)
    (print (MovingFor movement_duration) ;;
     fetch_telegrams movement_duration) ;;
  when disable_after_motion (disable_drive node_id timeout_ms).

(** The test of line 190:
    [status_word is None or (status_word & 0x6F) != 0x27]. *)
Definition not_enabled (status_word : option Z) : bool :=
  match status_word with
  | None => true
  | Some v => negb (Z.land v 0x0000006F =? 0x00000027)
  end.

(** Lines 188-204: enable when needed, then the setpoint. *)
Definition move_run (node_id speed : Z) (disable_after_motion : bool)
    (movement_duration timeout_ms : Z) : M unit :=
  status_word <- sdo_read_access node_id 0x6041 0x00 timeout_ms ;;
  when (not_enabled status_word) (enable_drive node_id timeout_ms) ;;
  move_setpoint node_id speed disable_after_motion movement_duration timeout_ms.

Definition move_motor_in_profile_velocity (node_id speed accel decel : Z)
    (disable_after_motion : bool) (movement_duration timeout_ms : Z) : M unit :=
  move_ramps node_id accel decel timeout_ms ;;
  move_mode node_id timeout_ms ;;
  move_run node_id speed disable_after_motion movement_duration timeout_ms.

(** ** Reading the frames that were written *)

(** The request frames, as the SDO client lays them out. *)
Definition read_request (node_id index subindex : Z) : Frame :=
  mkFrame (0x600 + node_id)
    [0x40; Z.land index 0xFF; Z.land (Z.shiftr index 8) 0xFF; subindex;
     0; 0; 0; 0]
    canMSG_STD.

Definition write_request (node_id index subindex value : Z) : Frame :=
  mkFrame (0x600 + node_id)
    [0x2B; Z.land index 0xFF; Z.land (Z.shiftr index 8) 0xFF; subindex;
     Z.land value 0xFF; Z.land (Z.shiftr value 8) 0xFF; 0; 0]
    canMSG_STD.

(** The command byte, the object index and the 32-bit payload field of an
    SDO frame (bytes 0, 1-2 and 4-7). *)
Definition sdo_command_of (f : Frame) : Z := nth 0 (data f) 0.

Definition sdo_index_of (f : Frame) : Z :=
  nth 1 (data f) 0 + 256 * nth 2 (data f) 0.

Definition sdo_payload_of (f : Frame) : Z :=
  nth 4 (data f) 0 + 256 * nth 5 (data f) 0
  + 65536 * nth 6 (data f) 0 + 16777216 * nth 7 (data f) 0.

(** Lines 87-89 and 128-130: the fault reset and its settle delay. *)
Definition reset_fault (node_id timeout_ms : Z) : M unit :=
  print IssuingFaultReset ;;
  sdo_write_access node_id 0x6040 0x00 0x80 timeout_ms ;;
  sleep 1.

(** The frames handed to the driver while [m] runs from [w]. *)
Definition sent_by {A} (m : M A) (w : World) : list Frame :=
  skipn (List.length (frames w)) (frames (fst (m w))).

(** A download to one of the configuration objects: profile acceleration,
    profile deceleration, mode of operation. *)
Definition is_config_write (f : Frame) : bool :=
  (sdo_command_of f =? 0x2B) &&
  ((sdo_index_of f =? 0x6083) || (sdo_index_of f =? 0x6084)
   || (sdo_index_of f =? 0x6060)).

Definition config_writes (fs : list Frame) : list Frame :=
  filter is_config_write fs.

(** The value a call of [sdo_write_access] puts on the wire for [value],
    which is what the drive holds and reports afterwards. *)
Definition on_wire (value : Z) : Z :=
  sdo_payload_of (write_request 0 0 0 value).

(** "A call that finds, in its reads of 0x6083, 0x6084 and 0x6061, what an
    earlier call with the same profile wrote, writes none of 0x6083, 0x6084
    and 0x6060."  [w] is the world the earlier call left. *)
Definition rewrites_nothing (node_id speed accel decel : Z)
    (disable_after_motion : bool) (movement_duration timeout_ms : Z)
    (w : World) : Prop :=
  forall w1 w2 w3,
    sdo_read_access node_id 0x6083 0x00 timeout_ms w
      = (w1, Ok (Some (on_wire accel))) ->
    sdo_read_access node_id 0x6084 0x00 timeout_ms w1
      = (w2, Ok (Some (on_wire decel))) ->
    sdo_read_access node_id 0x6061 0x00 timeout_ms
        (fst (move_ramps node_id accel decel timeout_ms w))
      = (w3, Ok (Some (on_wire 3))) ->
    config_writes
      (sent_by (move_motor_in_profile_velocity node_id speed accel decel
                  disable_after_motion movement_duration timeout_ms) w) = [].

(** Whatever the world, [m] hands to the driver only frames satisfying
    [P], also when it ends by raising. *)
Definition only_sends {A} (P : Frame -> bool) (m : M A) : Prop :=
  forall w, exists fs,
    frames (fst (m w)) = frames w ++ fs /\ forallb P fs = true.

(** ** Incoming streams *)

(** The time the reads of a stretch of the incoming stream take. *)
Definition total_wait (evs : list RxEvent) : Z :=
  fold_right (fun ev acc => Z.of_N (rx_wait ev) + acc) 0 evs.

(** The event is a frame carrying the identifier [cob]. *)
Definition has_id (cob : Z) (ev : RxEvent) : bool :=
  match rx_outcome ev with
  | RxFrame f => id f =? cob
  | _ => false
  end.

(** The event is a transport failure of [channel.read]. *)
Definition is_failure (ev : RxEvent) : bool :=
  match rx_outcome ev with
  | CanlibException => true
  | _ => false
  end.

(** ** What the heartbeat monitor is expected to count *)

(** The loop of [fetch_telegrams] as it is left for a window of
    [duration_seconds] opened in [w]. *)
Definition fetch_window (duration_seconds : Z) (w : World) : Fetch :=
  fetch_loop (rx w) (clock w) (clock w + 1000 * duration_seconds) 0.

(** The number of heartbeats of node [node_id] in a stretch of the stream. *)
Definition heartbeats_of (node_id : Z) (evs : list RxEvent) : Z :=
  Z.of_nat (List.length (filter (has_id (0x700 + node_id)) evs)).

(** "The final count is the number of frames with identifier
    [0x700 + node_id] received during the window."  The events received
    are a prefix of the stream; the read of each of them started inside the
    window, and the first event left unread, if there is one, would have
    been read after its end. *)
Definition counts_heartbeats_of (node_id duration_seconds : Z) (w : World)
  : Prop :=
  exists received,
    rx w = received ++ f_rx (fetch_window duration_seconds w) /\
    (forall pre ev post,
        received = pre ++ ev :: post ->
        total_wait pre < 1000 * duration_seconds) /\
    (f_rx (fetch_window duration_seconds w) = [] \/
     1000 * duration_seconds <= total_wait received) /\
    f_count (fetch_window duration_seconds w) = heartbeats_of node_id received.

(** ** Simulated transports *)

(** A world at time 0 in which nothing was written or printed yet, every
    write succeeds, and the reads find [evs]. *)
Definition world_with (evs : list RxEvent) : World := mkWorld 0 evs [] [] [].

(** The drive's answer to an upload of a 16-bit object, received at once. *)
Definition sdo_response (node_id index value : Z) : RxEvent :=
  mkRx 0 (RxFrame (mkFrame (0x580 + node_id)
    [0x4B; Z.land index 0xFF; Z.land (Z.shiftr index 8) 0xFF; 0x00;
     Z.land value 0xFF; Z.land (Z.shiftr value 8) 0xFF; 0; 0] canMSG_STD)).

(** A heartbeat of node [node_id], received after 10 ms. *)
Definition heartbeat (node_id : Z) : RxEvent :=
  mkRx 10 (RxFrame (mkFrame (0x700 + node_id) [0x05] canMSG_STD)).

(** A drive that reports a fault (statusword 0x0008) once and then falls
    silent, one that reports fault reaction active (0x000F), and one that
    reports a fault and, after the reset, switch-on-disabled (0x0040). *)
Definition faulted_then_silent : World :=
  world_with [sdo_response 127 0x6041 0x0008].

Definition fault_reaction_active : World :=
  world_with [sdo_response 127 0x6041 0x000F].

Definition faulted_then_cleared : World :=
  world_with [sdo_response 127 0x6041 0x0008; sdo_response 127 0x6041 0x0040].

(** The frames of the enable sequence: each command written to the
    controlword is followed by the request that reads the statusword. *)
Definition enable_sequence (node_id : Z) : list Frame :=
  [write_request node_id 0x6040 0x00 0x00; read_request node_id 0x6041 0x00;
   write_request node_id 0x6040 0x00 0x06; read_request node_id 0x6041 0x00;
   write_request node_id 0x6040 0x00 0x07; read_request node_id 0x6041 0x00;
   write_request node_id 0x6040 0x00 0x0F; read_request node_id 0x6041 0x00].

(** A drive observed over two calls of [move_motor_in_profile_velocity]
    with acceleration 70000 and deceleration 1000.  Before the first call it
    holds the ramps 500 and 1000 and displays mode 3; the first call writes
    the acceleration, and the drive reports from then on what that write
    carried, 4464.  The statuswords are those of a drive that follows the
    commands. *)
Definition two_calls_stream : list RxEvent :=
  [ (* first call *)
    sdo_response 127 0x6083 500; sdo_response 127 0x6084 1000;
    sdo_response 127 0x6041 0x0027; sdo_response 127 0x6041 0x0040;
    sdo_response 127 0x6061 3;
    sdo_response 127 0x6041 0x0040; sdo_response 127 0x6041 0x0040;
    sdo_response 127 0x6041 0x0040; sdo_response 127 0x6041 0x0021;
    sdo_response 127 0x6041 0x0023; sdo_response 127 0x6041 0x0027;
    (* second call *)
    sdo_response 127 0x6083 4464; sdo_response 127 0x6084 1000;
    sdo_response 127 0x6041 0x0027; sdo_response 127 0x6041 0x0040;
    sdo_response 127 0x6061 3;
    sdo_response 127 0x6041 0x0040; sdo_response 127 0x6041 0x0040;
    sdo_response 127 0x6041 0x0040; sdo_response 127 0x6041 0x0021;
    sdo_response 127 0x6041 0x0023; sdo_response 127 0x6041 0x0027 ].

(** A drive that already holds the ramps 1000 and 1000, displays mode 3 and
    is enabled (statusword 0x0027). *)
Definition configured_drive : World :=
  world_with [sdo_response 127 0x6083 1000; sdo_response 127 0x6084 1000;
              sdo_response 127 0x6061 3; sdo_response 127 0x6041 0x0027].


(** ** Conditions on the incoming stream *)

(** No read of the stretch fails with a [CanlibException]. *)
Definition no_failure (evs : list RxEvent) : bool :=
  forallb (fun ev => negb (is_failure ev)) evs.

(** Every read of the stretch returns within the 1000 ms that
    [channel.read(timeout=1000)] allows. *)
Definition within_read_timeout (evs : list RxEvent) : bool :=
  forallb (fun ev => (rx_wait ev <=? 1000)%N) evs.

(** A received frame as a classic CAN controller delivers it: at most eight
    data bytes, each in 0..255. *)
Definition frame_well_formed (f : Frame) : bool :=
  (List.length (data f) <=? 8)%nat && forallb is_byte (data f).

Definition rx_well_formed (evs : list RxEvent) : bool :=
  forallb (fun ev => match rx_outcome ev with
                     | RxFrame f => frame_well_formed f
                     | _ => true
                     end) evs.

(** The frame by which a CANopen server confirms the download of object
    [index], subindex 0: command 0x60 and no payload. *)
Definition sdo_download_confirmation (node_id index : Z) : Frame :=
  mkFrame (0x580 + node_id)
    [0x60; Z.land index 0xFF; Z.land (Z.shiftr index 8) 0xFF; 0x00;
     0; 0; 0; 0] canMSG_STD.

(** ** Parts of the drive functions, and what is said of a computation *)

(** Lines 136-138: the disable-voltage command and its settle delay. *)
Definition disable_voltage (node_id timeout_ms : Z) : M unit :=
  print IssuingDisableVoltage ;;
  sdo_write_access node_id 0x6040 0x00 0x00 timeout_ms ;;
  sleep 1.

(** The test of line 140:
    [read_data is not None and (read_data & 0x4F) != 0x40]. *)
Definition wrong_status (read_data : option Z) : bool :=
  match read_data with
  | Some v => negb (Z.land v 0x0000004F =? 0x00000040)
  | None => false
  end.

(** The statusword sends [enable_drive] and [disable_drive] neither to the
    fault-reaction-active branch nor to the fault-reset branch; an
    unreadable statusword ([None]) is such a one. *)
Definition no_fault_seen (read_data : option Z) : bool :=
  match read_data with
  | Some v => negb (Z.land v 0x4F =? 0x0F) && negb (Z.land v 0x4F =? 0x08)
  | None => true
  end.

(** Whenever [m] returns normally, the last line printed is [msg]. *)
Definition ends_with {A} (msg : Msg) (m : M A) : Prop :=
  forall w w' a, m w = (w', Ok a) ->
    exists lines, out w' = lines ++ [msg].

(** Whenever [m] returns normally, at least [ms] milliseconds have passed. *)
Definition lasts {A} (ms : Z) (m : M A) : Prop :=
  forall w w' a, m w = (w', Ok a) -> clock w + ms <= clock w'.

(** A drive that holds the ramps 1000 and 1000 and a channel that refuses
    the first frame written. *)
Definition refusing_channel : World :=
  mkWorld 0 [sdo_response 127 0x6083 1000] [true] [] [].

(** A read failure of the transport ahead of the drive's answer. *)
Definition failure_then_answer : World :=
  world_with [heartbeat 127; mkRx 20 CanlibException;
              sdo_response 127 0x6041 0x0027].

(** A drive that confirms a download of the controlword and then answers
    the statusword upload with 0x0027. *)
Definition confirming_drive : World :=
  world_with [mkRx 1 (RxFrame (sdo_download_confirmation 127 0x6040));
              sdo_response 127 0x6041 0x0027].

(** A drive in an ordinary state: switch-on-disabled (0x0040), then the
    statuswords of the enable sequence. *)
Definition ordinary_drive : World :=
  world_with [sdo_response 127 0x6041 0x0040; sdo_response 127 0x6041 0x0040;
              sdo_response 127 0x6041 0x0021; sdo_response 127 0x6041 0x0023;
              sdo_response 127 0x6041 0x0027].

(** A drive that displays mode 1, is enabled, and follows the commands. *)
Definition drive_in_mode_1 : World :=
  world_with [sdo_response 127 0x6061 1;
              sdo_response 127 0x6041 0x0027; sdo_response 127 0x6041 0x0040;
              sdo_response 127 0x6041 0x0040; sdo_response 127 0x6041 0x0040;
              sdo_response 127 0x6041 0x0021; sdo_response 127 0x6041 0x0023;
              sdo_response 127 0x6041 0x0027].

(** The transport never fails from [w] on: every [channel.write] to come
    is accepted and no [channel.read] to come raises anything but
    [CanNoMsg]. *)
Definition transport_ok (w : World) : bool :=
  forallb negb (tx_fail w) && no_failure (rx w).

(** A response of node [node_id] is delivered before [deadline_ms] have
    passed since the polling began. *)
Definition arrives_before (deadline_ms node_id : Z) (evs : list RxEvent)
  : Prop :=
  exists pre d f post,
    evs = pre ++ mkRx d (RxFrame f) :: post /\
    id f = 0x580 + node_id /\
    total_wait pre + Z.of_N d < deadline_ms.

(** A drive whose answer, statusword 0x0027, takes 900 ms to come. *)
Definition late_answer : World :=
  world_with [mkRx 900 (RxFrame (mkFrame 0x585
                          [0x4B; 0x41; 0x60; 0x00; 0x27; 0; 0; 0] canMSG_STD))].

(** A drive that reports a fault when the channel refuses the second frame
    written, the fault reset. *)
Definition faulted_and_refusing : World :=
  mkWorld 0 [sdo_response 127 0x6041 0x0008] [false; true] [] [].


(** [m] keeps a transport that does not fail, and it raises nothing but
    [AttributeError], and this only when the transport fails. *)
Definition fails_with_transport {A} (m : M A) : Prop :=
  forall w w' r, m w = (w', r) ->
    (transport_ok w = true -> transport_ok w' = true) /\
    (forall e, r = Raise e -> e = AttributeError /\ transport_ok w = false).

(** The lines [fetch_telegrams] prints for the heartbeats of node 127 in a
    stretch of the stream. *)
Definition heartbeat_lines (evs : list RxEvent) : list Msg :=
  map (fun _ => ReceivedHeartbeat 127) (filter (has_id (0x700 + 127)) evs).

(** A read failure of the transport in the middle of a window. *)
Definition failure_in_window : World :=
  world_with [heartbeat 127; mkRx 700 CanlibException;
              mkRx 900 CanNoMsg; heartbeat 127].

(** ** Basic facts *)

Lemma land_255_range (x : Z) : 0 <= Z.land x 0xFF < 256.
Proof.
  change 0xFF with (Z.ones 8). rewrite Z.land_ones by lia.
  change (2 ^ 8) with 256. apply Z.mod_pos_bound. lia.
Qed.

Lemma is_byte_true (b : Z) : 0 <= b < 256 -> is_byte b = true.
Proof. unfold is_byte. intros H. apply andb_true_intro. split; lia. Qed.

Lemma is_byte_land (x : Z) : is_byte (Z.land x 0xFF) = true.
Proof. apply is_byte_true, land_255_range. Qed.

Lemma Frame_new_read (node_id index subindex : Z) :
  0 <= subindex < 256 ->
  Frame_new (0x600 + node_id)
    [0x40; Z.land index 0xFF; Z.land (Z.shiftr index 8) 0xFF; subindex;
     0; 0; 0; 0] canMSG_STD
  = Ok (read_request node_id index subindex).
Proof.
  intros H. unfold Frame_new. cbn [forallb].
  rewrite !is_byte_land, (is_byte_true subindex H). reflexivity.
Qed.

Lemma Frame_new_write (node_id index subindex value : Z) :
  0 <= subindex < 256 ->
  Frame_new (0x600 + node_id)
    [0x2B; Z.land index 0xFF; Z.land (Z.shiftr index 8) 0xFF; subindex;
     Z.land value 0xFF; Z.land (Z.shiftr value 8) 0xFF; 0; 0] canMSG_STD
  = Ok (write_request node_id index subindex value).
Proof.
  intros H. unfold Frame_new. cbn [forallb].
  rewrite !is_byte_land, (is_byte_true subindex H). reflexivity.
Qed.

(** Two bytes hold exactly the low 16 bits of an integer of any sign. *)
Lemma low_two_bytes (v : Z) :
  Z.land v 0xFF + 256 * Z.land (Z.shiftr v 8) 0xFF = v mod 2 ^ 16.
Proof.
  change 0xFF with (Z.ones 8). rewrite !Z.land_ones by lia.
  rewrite Z.shiftr_div_pow2 by lia.
  change (2 ^ 8) with 256. change (2 ^ 16) with (256 * 256).
  rewrite Z.rem_mul_r by lia. reflexivity.
Qed.

Lemma frames_app (w : World) (e : TxEntry) :
  map tx_frame (tx_log w ++ [e]) = frames w ++ [tx_frame e].
Proof. unfold frames. rewrite map_app. reflexivity. Qed.

(** What [sdo_write_access] does, in one equation. *)
Lemma sdo_write_access_eq (node_id index subindex value timeout_ms : Z)
    (w : World) :
  0 <= subindex < 256 ->
  sdo_write_access node_id index subindex value timeout_ms w =
  (mkWorld (clock w) (rx w) (tl (tx_fail w))
     (tx_log w ++ [mkTx (write_request node_id index subindex value)
                        (negb (hd false (tx_fail w)))])
     (if hd false (tx_fail w) then out w
      else out w ++ [SentSdoWrite index subindex value]),
   if hd false (tx_fail w) then Raise AttributeError else Ok tt).
Proof.
  intros H. unfold sdo_write_access.
  rewrite (Frame_new_write node_id index subindex value H).
  unfold bind, channel_write, print, except_canlib_CanlibException, raise.
  cbn. destruct (hd false (tx_fail w)); reflexivity.
Qed.

(** The same when the channel accepts the frame. *)
Lemma sdo_write_access_accepted (node_id index subindex value timeout_ms : Z)
    (w : World) :
  0 <= subindex < 256 ->
  hd false (tx_fail w) = false ->
  sdo_write_access node_id index subindex value timeout_ms w =
  (mkWorld (clock w) (rx w) (tl (tx_fail w))
     (tx_log w ++ [mkTx (write_request node_id index subindex value) true])
     (out w ++ [SentSdoWrite index subindex value]),
   Ok tt).
Proof.
  intros H Htx. rewrite sdo_write_access_eq by exact H. rewrite Htx.
  reflexivity.
Qed.

(** What [sdo_read_access] does, in one equation. *)
Lemma sdo_read_access_eq (node_id index subindex timeout_ms : Z) (w : World) :
  0 <= subindex < 256 ->
  sdo_read_access node_id index subindex timeout_ms w =
  if hd false (tx_fail w) then
    (mkWorld (clock w) (rx w) (tl (tx_fail w))
       (tx_log w ++ [mkTx (read_request node_id index subindex) false])
       (out w),
     Raise AttributeError)
  else
    let p := sdo_poll (rx w) (clock w) (clock w + timeout_ms)
                      (0x600 + node_id) in
    (mkWorld (p_clock p) (p_rx p) (tl (tx_fail w))
       (tx_log w ++ [mkTx (read_request node_id index subindex) true])
       (out w ++ SentSdoRead index subindex :: p_out p
              ++ match p_result p with
                 | Ok None => [TimeoutWaitingForSdoResponse]
                 | _ => []
                 end),
     p_result p).
Proof.
  intros H. unfold sdo_read_access.
  rewrite (Frame_new_read node_id index subindex H).
  unfold channel_write, bind, print, ret, except_canlib_CanlibException,
    raise. cbn.
  destruct (hd false (tx_fail w)); cbn; [reflexivity|].
  destruct (p_result _) as [[value|]|e]; cbn.
  - rewrite app_nil_r. reflexivity.
  - rewrite <- app_assoc. reflexivity.
  - rewrite app_nil_r. reflexivity.
Qed.

(** Whatever comes of it, a read hands exactly its request to the driver
    and uses up one entry of [tx_fail]. *)
Lemma sdo_read_access_frames (node_id index timeout_ms : Z) (w : World) :
  exists w' r,
    sdo_read_access node_id index 0x00 timeout_ms w = (w', r) /\
    frames w' = frames w ++ [read_request node_id index 0x00] /\
    tx_fail w' = tl (tx_fail w).
Proof.
  rewrite sdo_read_access_eq by lia.
  destruct (hd false (tx_fail w)); cbv zeta;
    eexists; eexists; (split; [reflexivity|]);
    (split; [apply frames_app|reflexivity]).
Qed.

Lemma sdo_write_access_frames (node_id index value timeout_ms : Z) (w : World) :
  exists w' r,
    sdo_write_access node_id index 0x00 value timeout_ms w = (w', r) /\
    frames w' = frames w ++ [write_request node_id index 0x00 value].
Proof.
  rewrite sdo_write_access_eq by lia.
  eexists; eexists; (split; [reflexivity|]); apply frames_app.
Qed.

(** *** The polling loops *)

Lemma total_wait_cons (ev : RxEvent) (evs : list RxEvent) :
  total_wait (ev :: evs) = Z.of_N (rx_wait ev) + total_wait evs.
Proof. reflexivity. Qed.

Lemma total_wait_nonneg (evs : list RxEvent) : 0 <= total_wait evs.
Proof.
  induction evs as [|ev evs IH]; [cbn; lia|].
  rewrite total_wait_cons. lia.
Qed.

(** On a silent bus the loop is left because the deadline has passed. *)
Lemma idle_until_deadline (n : nat) (now end_time : Z) :
  end_time - now <= Z.of_nat n ->
  end_time <= idle_until n now end_time.
Proof.
  revert now. induction n as [|n IH]; intros now H; cbn [idle_until].
  - lia.
  - destruct (now <? end_time) eqn:E.
    + apply IH. lia.
    + apply Z.ltb_ge in E. exact E.
Qed.

Lemma idle_until_expired (n : nat) (now end_time : Z) :
  end_time <= now -> idle_until n now end_time = now.
Proof.
  intros H. destruct n as [|n]; cbn [idle_until]; [reflexivity|].
  replace (now <? end_time) with false by (symmetry; apply Z.ltb_ge; lia).
  reflexivity.
Qed.

Lemma idle_until_overshoot (n : nat) (now end_time : Z) :
  now < end_time + 1000 -> idle_until n now end_time < end_time + 1000.
Proof.
  revert now. induction n as [|n IH]; intros now H; cbn [idle_until].
  - exact H.
  - destruct (now <? end_time) eqn:E; [|exact H].
    apply Z.ltb_lt in E. apply IH. lia.
Qed.

Lemma idle_until_ge (n : nat) (now end_time : Z) :
  now <= idle_until n now end_time.
Proof.
  revert now. induction n as [|n IH]; intros now; cbn [idle_until].
  - lia.
  - destruct (now <? end_time); [specialize (IH (now + 1000))|]; lia.
Qed.

(** [int.from_bytes(data[4:], 'little')] is the 32-bit field in bytes 4-7 of
    a frame of at most 8 bytes. *)
Lemma payload_of_short_frame (f : Frame) :
  (List.length (data f) <= 8)%nat ->
  int_from_bytes_little (skipn 4 (data f)) = sdo_payload_of f.
Proof.
  unfold sdo_payload_of. destruct (data f) as [|b0 [|b1 [|b2 [|b3 l]]]];
    cbn [skipn nth int_from_bytes_little List.length]; intros H; try lia.
  destruct l as [|b4 [|b5 [|b6 [|b7 [|b8 l]]]]];
    cbn [nth int_from_bytes_little List.length] in *; lia.
Qed.

(** Events that are neither the awaited response nor a failure are read and
    dropped, as long as the reads start before the deadline. *)
Lemma sdo_poll_skips (pre rest : list RxEvent) (now end_time cob_id : Z) :
  forallb (fun ev => negb (has_id (cob_id - 0x80) ev) && negb (is_failure ev))
          pre = true ->
  now + total_wait pre < end_time ->
  sdo_poll (pre ++ rest) now end_time cob_id
  = sdo_poll rest (now + total_wait pre) end_time cob_id.
Proof.
  revert now. induction pre as [|ev pre IH]; intros now Hpre Hlt; cbn [app].
  - cbn. rewrite Z.add_0_r. reflexivity.
  - cbn [forallb] in Hpre. rewrite total_wait_cons in *.
    apply andb_prop in Hpre. destruct Hpre as [Hev Hpre].
    pose proof (total_wait_nonneg pre) as Hnn.
    cbn [sdo_poll].
    replace (now <? end_time) with true by (symmetry; apply Z.ltb_lt; lia).
    cbv zeta. unfold has_id, is_failure in Hev.
    destruct (rx_outcome ev) as [g| |].
    + cbn in Hev. rewrite andb_true_r in Hev.
      apply negb_true_iff in Hev. rewrite Hev.
      rewrite IH by (assumption || lia). f_equal. lia.
    + rewrite IH by (assumption || lia). f_equal. lia.
    + discriminate Hev.
Qed.

(** The first response with the awaited identifier ends the loop, when the
    read that receives it starts before the deadline and nothing before it
    is a response or a failure of the transport. *)
Lemma sdo_poll_accepts (pre post : list RxEvent) (d : N) (f : Frame)
    (now end_time cob_id : Z) :
  id f = cob_id - 0x80 ->
  forallb (fun ev => negb (has_id (cob_id - 0x80) ev) && negb (is_failure ev))
          pre = true ->
  now + total_wait pre < end_time ->
  sdo_poll (pre ++ mkRx d (RxFrame f) :: post) now end_time cob_id =
  let value := int_from_bytes_little (skipn 4 (data f)) in
  mkPoll (now + total_wait pre + Z.of_N d) post [ReceivedData value]
         (Ok (Some value)).
Proof.
  intros Hid Hpre Hlt. rewrite (sdo_poll_skips pre _ _ _ _ Hpre Hlt).
  cbn [sdo_poll].
  replace (now + total_wait pre <? end_time) with true
    by (symmetry; apply Z.ltb_lt; lia).
  cbn. rewrite Hid, Z.eqb_refl. reflexivity.
Qed.

(** A failure of [channel.read] met in the same way ends the loop with
    [AttributeError]. *)
Lemma sdo_poll_fails (pre post : list RxEvent) (d : N)
    (now end_time cob_id : Z) :
  forallb (fun ev => negb (has_id (cob_id - 0x80) ev) && negb (is_failure ev))
          pre = true ->
  now + total_wait pre < end_time ->
  sdo_poll (pre ++ mkRx d CanlibException :: post) now end_time cob_id =
  mkPoll (now + total_wait pre + Z.of_N d) post [] (Raise AttributeError).
Proof.
  intros Hpre Hlt. rewrite (sdo_poll_skips pre _ _ _ _ Hpre Hlt).
  cbn [sdo_poll].
  replace (now + total_wait pre <? end_time) with true
    by (symmetry; apply Z.ltb_lt; lia).
  reflexivity.
Qed.

(** Without a response with the awaited identifier received by a read that
    starts before the deadline, the loop yields nothing. *)
Lemma sdo_poll_times_out (pre post : list RxEvent) (now end_time cob_id : Z) :
  forallb (fun ev => negb (has_id (cob_id - 0x80) ev) && negb (is_failure ev))
          pre = true ->
  post = [] \/ end_time <= now + total_wait pre ->
  p_result (sdo_poll (pre ++ post) now end_time cob_id) = Ok None.
Proof.
  revert now. induction pre as [|ev pre IH]; intros now Hpre Hend; cbn [app].
  - destruct Hend as [->|Hend]; [reflexivity|].
    cbn in Hend. destruct post as [|ev post]; [reflexivity|].
    cbn [sdo_poll].
    replace (now <? end_time) with false by (symmetry; apply Z.ltb_ge; lia).
    reflexivity.
  - cbn [forallb] in Hpre. apply andb_prop in Hpre. destruct Hpre as [Hev Hpre].
    cbn [sdo_poll]. destruct (now <? end_time); [|reflexivity].
    cbv zeta. unfold has_id, is_failure in Hev.
    assert (Hend' : post = [] \/
              end_time <= now + Z.of_N (rx_wait ev) + total_wait pre).
    { destruct Hend as [->|Hend]; [left; reflexivity|right].
      rewrite total_wait_cons in Hend. lia. }
    destruct (rx_outcome ev) as [g| |].
    + cbn in Hev. rewrite andb_true_r in Hev.
      apply negb_true_iff in Hev. rewrite Hev. apply IH; assumption.
    + apply IH; assumption.
    + discriminate Hev.
Qed.

Lemma sdo_poll_expired (evs : list RxEvent) (now end_time cob_id : Z) :
  end_time <= now ->
  sdo_poll evs now end_time cob_id = mkPoll now evs [] (Ok None).
Proof.
  intros H. destruct evs as [|ev evs]; cbn [sdo_poll].
  - rewrite idle_until_expired by exact H. reflexivity.
  - replace (now <? end_time) with false by (symmetry; apply Z.ltb_ge; lia).
    reflexivity.
Qed.

(** The loop is left empty-handed only when the deadline has passed. *)
Lemma sdo_poll_deadline (evs : list RxEvent) (now end_time cob_id : Z) :
  p_result (sdo_poll evs now end_time cob_id) = Ok None ->
  end_time <= p_clock (sdo_poll evs now end_time cob_id).
Proof.
  revert now. induction evs as [|ev evs IH]; intros now Hnone.
  - cbn. apply idle_until_deadline. lia.
  - cbn [sdo_poll] in *. destruct (now <? end_time) eqn:E.
    + cbv zeta in *. destruct (rx_outcome ev) as [g| |].
      * destruct (id g =? cob_id - 0x80).
        -- discriminate Hnone.
        -- apply IH; assumption.
      * apply IH; assumption.
      * discriminate Hnone.
    + cbn. apply Z.ltb_ge in E. exact E.
Qed.

(** A read started before the deadline ends less than 1000 ms after it. *)
Lemma sdo_poll_overshoot (evs : list RxEvent) (now end_time cob_id : Z) :
  within_read_timeout evs = true ->
  now < end_time + 1000 ->
  p_clock (sdo_poll evs now end_time cob_id) < end_time + 1000.
Proof.
  unfold within_read_timeout. revert now.
  induction evs as [|ev evs IH]; intros now Hok Hlt.
  - cbn. apply idle_until_overshoot. exact Hlt.
  - cbn [forallb] in Hok. apply andb_prop in Hok. destruct Hok as [Hev Hok].
    apply N.leb_le in Hev.
    cbn [sdo_poll]. destruct (now <? end_time) eqn:E; [|exact Hlt].
    apply Z.ltb_lt in E. cbv zeta.
    assert (Hnext : now + Z.of_N (rx_wait ev) < end_time + 1000) by lia.
    destruct (rx_outcome ev) as [g| |].
    + destruct (id g =? cob_id - 0x80); [exact Hnext|apply IH; assumption].
    + apply IH; assumption.
    + exact Hnext.
Qed.

Lemma sdo_poll_clock (evs : list RxEvent) (now end_time cob_id : Z) :
  now <= p_clock (sdo_poll evs now end_time cob_id).
Proof.
  revert now. induction evs as [|ev evs IH]; intros now.
  - cbn. apply idle_until_ge.
  - cbn [sdo_poll]. destruct (now <? end_time); [|cbn; lia].
    cbv zeta.
    assert (Hnext : now <= now + Z.of_N (rx_wait ev)) by lia.
    destruct (rx_outcome ev) as [g| |].
    + destruct (id g =? cob_id - 0x80); [exact Hnext|].
      specialize (IH (now + Z.of_N (rx_wait ev))). lia.
    + specialize (IH (now + Z.of_N (rx_wait ev))). lia.
    + exact Hnext.
Qed.

(** The loop takes its events from the head of the stream, and raises only
    when one of them is a failure. *)
Lemma sdo_poll_suffix (evs : list RxEvent) (now end_time cob_id : Z) :
  exists used, evs = used ++ p_rx (sdo_poll evs now end_time cob_id).
Proof.
  revert now. induction evs as [|ev evs IH]; intros now.
  - exists []. reflexivity.
  - cbn [sdo_poll]. destruct (now <? end_time); [|exists []; reflexivity].
    cbv zeta.
    destruct (IH (now + Z.of_N (rx_wait ev))) as [used Hused].
    destruct (rx_outcome ev) as [g| |].
    + destruct (id g =? cob_id - 0x80).
      * exists [ev]. reflexivity.
      * exists (ev :: used). cbn [app]. f_equal. exact Hused.
    + exists (ev :: used). cbn [app]. f_equal. exact Hused.
    + exists [ev]. reflexivity.
Qed.

Lemma sdo_poll_no_raise (evs : list RxEvent) (now end_time cob_id : Z) :
  no_failure evs = true ->
  exists r, p_result (sdo_poll evs now end_time cob_id) = Ok r.
Proof.
  unfold no_failure. revert now.
  induction evs as [|ev evs IH]; intros now Hok.
  - exists None. reflexivity.
  - cbn [forallb] in Hok. apply andb_prop in Hok. destruct Hok as [Hev Hok].
    cbn [sdo_poll]. destruct (now <? end_time); [|exists None; reflexivity].
    cbv zeta. unfold is_failure in Hev.
    destruct (rx_outcome ev) as [g| |].
    + destruct (id g =? cob_id - 0x80); [eexists; reflexivity|].
      apply IH, Hok.
    + apply IH, Hok.
    + discriminate Hev.
Qed.

Lemma sdo_poll_raises (evs : list RxEvent) (now end_time cob_id : Z) (e : exn) :
  p_result (sdo_poll evs now end_time cob_id) = Raise e ->
  e = AttributeError /\ no_failure evs = false.
Proof.
  unfold no_failure. revert now.
  induction evs as [|ev evs IH]; intros now H.
  - discriminate H.
  - cbn [sdo_poll] in H. destruct (now <? end_time); [|discriminate H].
    cbv zeta in H. cbn [forallb]. unfold is_failure at 1.
    destruct (rx_outcome ev) as [g| |].
    + destruct (id g =? cob_id - 0x80); [discriminate H|].
      apply (IH _ H).
    + apply (IH _ H).
    + cbn in H. injection H as <-. split; reflexivity.
Qed.

(** ** Sequencing *)

Lemma bind_ok {A B} (m : M A) (k : A -> M B) (w w' : World) (a : A) :
  m w = (w', Ok a) -> bind m k w = k a w'.
Proof. intros H. unfold bind. rewrite H. reflexivity. Qed.

Lemma bind_raise {A B} (m : M A) (k : A -> M B) (w w' : World) (e : exn) :
  m w = (w', Raise e) -> bind m k w = (w', Raise e).
Proof. intros H. unfold bind. rewrite H. reflexivity. Qed.

Lemma bind_assoc {A B C} (m : M A) (k : A -> M B) (h : B -> M C) (w : World) :
  bind (bind m k) h w = bind m (fun a => bind (k a) h) w.
Proof.
  unfold bind. destruct (m w) as [w' [a|e]]; reflexivity.
Qed.

Lemma bind_inv {A B} (m : M A) (k : A -> M B) (w w' : World) (r : result B) :
  bind m k w = (w', r) ->
  (exists w1 a, m w = (w1, Ok a) /\ k a w1 = (w', r)) \/
  (exists e, m w = (w', Raise e) /\ r = Raise e).
Proof.
  unfold bind. destruct (m w) as [w1 [a|e]]; intros H.
  - left. exists w1, a. split; [reflexivity|exact H].
  - right. injection H as <- <-. exists e. split; reflexivity.
Qed.

Lemma print_eq (m : Msg) (w : World) :
  print m w
  = (mkWorld (clock w) (rx w) (tx_fail w) (tx_log w) (out w ++ [m]), Ok tt).
Proof. reflexivity. Qed.

Lemma sleep_eq (seconds : Z) (w : World) :
  sleep seconds w
  = (mkWorld (clock w + 1000 * seconds) (rx w) (tx_fail w) (tx_log w) (out w),
     Ok tt).
Proof. reflexivity. Qed.

(** One statement of a sequence has run: [step E] rewrites with the equation
    [E] of its first action; [step_write H] needs the proof [H] that the
    channel accepts the frame. *)
Ltac step E := erewrite bind_ok; [|exact E]; cbv beta iota.
Ltac step_print := erewrite bind_ok; [|apply print_eq]; cbv beta.
Ltac step_sleep := erewrite bind_ok; [|apply sleep_eq]; cbv beta.
Ltac step_write H :=
  erewrite bind_ok; [|apply sdo_write_access_accepted; [lia|exact H]];
  cbv beta.

(** *** A transport that does not fail *)

Lemma transport_ok_accepts (w : World) :
  transport_ok w = true -> hd false (tx_fail w) = false.
Proof.
  unfold transport_ok. intros H. apply andb_prop in H. destruct H as [H _].
  destruct (tx_fail w) as [|b l]; [reflexivity|].
  cbn [forallb] in H. apply andb_prop in H. destruct H as [H _].
  cbn. apply negb_true_iff in H. exact H.
Qed.

Lemma transport_ok_same (w w' : World) :
  rx w' = rx w -> tx_fail w' = tx_fail w -> transport_ok w' = transport_ok w.
Proof. intros H1 H2. unfold transport_ok. rewrite H1, H2. reflexivity. Qed.

Lemma transport_ok_next (w w' : World) (used : list RxEvent) :
  rx w = used ++ rx w' -> tx_fail w' = tl (tx_fail w) ->
  transport_ok w = true -> transport_ok w' = true.
Proof.
  unfold transport_ok, no_failure. intros Hrx Htx H.
  apply andb_prop in H. destruct H as [H1 H2].
  rewrite Hrx, forallb_app in H2. apply andb_prop in H2.
  destruct H2 as [_ H2]. rewrite Htx, H2, andb_true_r.
  destruct (tx_fail w) as [|b l]; [reflexivity|].
  cbn [forallb] in H1. apply andb_prop in H1. apply H1.
Qed.

(** On such a transport a write is accepted and a read returns a value or
    [None], and the transport is as good afterwards. *)
Lemma sdo_write_access_ok (node_id index value timeout_ms : Z) (w : World) :
  transport_ok w = true ->
  exists w',
    sdo_write_access node_id index 0x00 value timeout_ms w = (w', Ok tt) /\
    frames w' = frames w ++ [write_request node_id index 0x00 value] /\
    transport_ok w' = true.
Proof.
  intros Hok.
  rewrite sdo_write_access_accepted by (lia || apply transport_ok_accepts, Hok).
  eexists. split; [reflexivity|]. split; [apply frames_app|].
  apply (transport_ok_next w _ []); [reflexivity|reflexivity|exact Hok].
Qed.

Lemma sdo_read_access_ok (node_id index timeout_ms : Z) (w : World) :
  transport_ok w = true ->
  exists w' r,
    sdo_read_access node_id index 0x00 timeout_ms w = (w', Ok r) /\
    frames w' = frames w ++ [read_request node_id index 0x00] /\
    transport_ok w' = true.
Proof.
  intros Hok. rewrite sdo_read_access_eq by lia.
  rewrite (transport_ok_accepts w Hok). cbv zeta.
  assert (Hrx : no_failure (rx w) = true).
  { unfold transport_ok in Hok. apply andb_prop in Hok. apply Hok. }
  destruct (sdo_poll_no_raise (rx w) (clock w) (clock w + timeout_ms)
              (0x600 + node_id) Hrx) as [r Hr].
  destruct (sdo_poll_suffix (rx w) (clock w) (clock w + timeout_ms)
              (0x600 + node_id)) as [used Hused].
  rewrite Hr. eexists. exists r. split; [reflexivity|].
  split; [apply frames_app|].
  apply (transport_ok_next w _ used); [exact Hused|reflexivity|exact Hok].
Qed.

(** A read or a write that raises met a failure of the transport. *)
Lemma sdo_read_access_raises (node_id index timeout_ms : Z) (w w' : World)
    (e : exn) :
  sdo_read_access node_id index 0x00 timeout_ms w = (w', Raise e) ->
  e = AttributeError /\ transport_ok w = false.
Proof.
  intros H.
  destruct (transport_ok w) eqn:Hok.
  - destruct (sdo_read_access_ok node_id index timeout_ms w Hok)
      as [w1 [r [E _]]].
    rewrite E in H. discriminate H.
  - split; [|reflexivity].
    rewrite sdo_read_access_eq in H by lia.
    destruct (hd false (tx_fail w)).
    + injection H as _ <-. reflexivity.
    + cbv zeta in H. injection H as _ H.
      apply (sdo_poll_raises _ _ _ _ _ H).
Qed.

Lemma sdo_write_access_raises (node_id index value timeout_ms : Z)
    (w w' : World) (e : exn) :
  sdo_write_access node_id index 0x00 value timeout_ms w = (w', Raise e) ->
  e = AttributeError /\ transport_ok w = false.
Proof.
  intros H.
  destruct (transport_ok w) eqn:Hok.
  - destruct (sdo_write_access_ok node_id index value timeout_ms w Hok)
      as [w1 [E _]].
    rewrite E in H. discriminate H.
  - split; [|reflexivity].
    rewrite sdo_write_access_eq in H by lia.
    destruct (hd false (tx_fail w)); [|discriminate H].
    injection H as _ <-. reflexivity.
Qed.

Lemma sdo_read_access_keeps_ok (node_id index timeout_ms : Z) (w : World) :
  transport_ok w = true ->
  transport_ok (fst (sdo_read_access node_id index 0x00 timeout_ms w)) = true.
Proof.
  intros Hok.
  destruct (sdo_read_access_ok node_id index timeout_ms w Hok)
    as [w' [r [E [_ H]]]].
  rewrite E. exact H.
Qed.

(** ** SDO client: the request frames *)

(** C6: for an index of 16 bits and a subindex of 8 bits, the read request
    that [sdo_read_access] hands to the driver carries the identifier
    [0x600 + node_id] and the eight bytes
    [0x40, index & 0xFF, (index >> 8) & 0xFF, subindex, 0, 0, 0, 0]; bytes 1
    and 2 together are the index. *)
Theorem sdo_read_access_request (node_id index subindex timeout_ms : Z)
    (w : World) :
  0 <= index < 2 ^ 16 ->
  0 <= subindex < 2 ^ 8 ->
  exists frame ok,
    tx_log (fst (sdo_read_access node_id index subindex timeout_ms w))
      = tx_log w ++ [mkTx frame ok] /\
    id frame = 0x600 + node_id /\
    data frame = [0x40; Z.land index 0xFF; Z.land (Z.shiftr index 8) 0xFF;
                  subindex; 0; 0; 0; 0] /\
    sdo_index_of frame = index.
Proof.
  intros Hi Hs. change (2 ^ 8) with 256 in Hs.
  rewrite sdo_read_access_eq by exact Hs.
  exists (read_request node_id index subindex).
  exists (negb (hd false (tx_fail w))).
  split; [destruct (hd false (tx_fail w)); reflexivity|].
  split; [reflexivity|]. split; [reflexivity|].
  unfold sdo_index_of, read_request. cbn [data nth].
  rewrite low_two_bytes. apply Z.mod_small. exact Hi.
Qed.

Lemma sdo_read_access_request_witness :
  exists frame ok,
    tx_log (fst (sdo_read_access 5 0x6041 0x00 1000 (world_with [])))
      = tx_log (world_with []) ++ [mkTx frame ok] /\
    id frame = 0x600 + 5 /\
    data frame = [0x40; Z.land 0x6041 0xFF; Z.land (Z.shiftr 0x6041 8) 0xFF;
                  0x00; 0; 0; 0; 0] /\
    sdo_index_of frame = 0x6041.
Proof.
  apply (sdo_read_access_request 5 0x6041 0x00 1000 (world_with [])); lia.
Defined.

(** What a call of [sdo_write_access] does when the channel accepts the
    frame: one [channel.write], command byte [0x2B], no [channel.read], no
    delay, one line printed, normal return. *)
Lemma sdo_write_access_when_accepted
    (node_id index subindex value timeout_ms : Z) (w : World) :
  0 <= subindex < 256 ->
  hd false (tx_fail w) = false ->
  let w' := fst (sdo_write_access node_id index subindex value timeout_ms w) in
  snd (sdo_write_access node_id index subindex value timeout_ms w) = Ok tt /\
  (exists frame,
     tx_log w' = tx_log w ++ [mkTx frame true] /\
     sdo_command_of frame = 0x2B) /\
  rx w' = rx w /\
  clock w' = clock w /\
  tx_fail w' = tl (tx_fail w) /\
  out w' = out w ++ [SentSdoWrite index subindex value].
Proof.
  intros Hs Htx. cbv zeta. rewrite sdo_write_access_accepted by assumption.
  cbn [fst snd tx_log rx clock out tx_fail].
  split; [reflexivity|]. split.
  - exists (write_request node_id index subindex value).
    split; reflexivity.
  - repeat split.
Qed.

(** C7, on the code: when [channel.write] refuses the frame,
    [sdo_write_access] does not return: the handler of line 66 names
    [canlib.CanlibException], which does not resolve, so [AttributeError]
    is raised, and "Failed to send SDO write" is not printed.  One
    [channel.write] was made and none follows. *)
Theorem refused_write_raises_attribute_error :
  let w := refusing_channel in
  let w' := fst (sdo_write_access 127 0x6040 0x00 0x0F 1000 w) in
  hd false (tx_fail w) = true /\
  snd (sdo_write_access 127 0x6040 0x00 0x0F 1000 w) = Raise AttributeError /\
  out w' = out w /\
  tx_log w' = tx_log w ++ [mkTx (write_request 127 0x6040 0x00 0x0F) false] /\
  rx w' = rx w.
Proof.
  cbv zeta. repeat split.
Qed.

(** C8: whatever the value, the frame of [sdo_write_access] carries
    [value & 0xFF] and [(value >> 8) & 0xFF] in bytes 4 and 5 and zero in
    bytes 6 and 7, so the payload on the wire is [value mod 2^16]: the frame
    and the outcome are those of a call for [value mod 2^16].  When the
    channel accepts the frame the call returns normally and prints nothing
    but the usual line. *)
Theorem sdo_write_access_truncates
    (node_id index subindex value timeout_ms : Z) (w : World) :
  0 <= subindex < 256 ->
  let run v := sdo_write_access node_id index subindex v timeout_ms w in
  (exists frame,
     frames (fst (run value)) = frames w ++ [frame] /\
     skipn 4 (data frame)
       = [Z.land value 0xFF; Z.land (Z.shiftr value 8) 0xFF; 0; 0] /\
     sdo_payload_of frame = value mod 2 ^ 16) /\
  tx_log (fst (run value)) = tx_log (fst (run (value mod 2 ^ 16))) /\
  snd (run value) = snd (run (value mod 2 ^ 16)) /\
  (hd false (tx_fail w) = false ->
   snd (run value) = Ok tt /\
   out (fst (run value)) = out w ++ [SentSdoWrite index subindex value]).
Proof.
  intros Hs. cbv beta zeta. rewrite !sdo_write_access_eq by exact Hs.
  cbn [fst snd tx_log out].
  assert (Hlo : Z.land (value mod 2 ^ 16) 0xFF = Z.land value 0xFF).
  { change 0xFF with (Z.ones 8). rewrite !Z.land_ones by lia.
    change (2 ^ 16) with 65536. change (2 ^ 8) with 256.
    Z.div_mod_to_equations. lia. }
  assert (Hhi : Z.land (Z.shiftr (value mod 2 ^ 16) 8) 0xFF
                = Z.land (Z.shiftr value 8) 0xFF).
  { change 0xFF with (Z.ones 8). rewrite !Z.land_ones by lia.
    rewrite !Z.shiftr_div_pow2 by lia.
    change (2 ^ 16) with 65536. change (2 ^ 8) with 256.
    Z.div_mod_to_equations. lia. }
  split.
  - exists (write_request node_id index subindex value). split.
    + apply frames_app.
    + split; [reflexivity|].
      unfold sdo_payload_of, write_request. cbn [data nth].
      rewrite <- low_two_bytes. lia.
  - split; [|split; [reflexivity|]].
    + unfold write_request. rewrite Hlo, Hhi. reflexivity.
    + intros Htx. rewrite Htx. split; reflexivity.
Qed.

Lemma sdo_write_access_truncates_witness :
  let run v := sdo_write_access 127 0x6083 0x00 v 1000 (world_with []) in
  (exists frame,
     frames (fst (run 70000)) = frames (world_with []) ++ [frame] /\
     skipn 4 (data frame)
       = [Z.land 70000 0xFF; Z.land (Z.shiftr 70000 8) 0xFF; 0; 0] /\
     sdo_payload_of frame = 70000 mod 2 ^ 16) /\
  tx_log (fst (run 70000)) = tx_log (fst (run (70000 mod 2 ^ 16))) /\
  snd (run 70000) = Ok tt /\
  out (fst (run 70000)) = [SentSdoWrite 0x6083 0x00 70000].
Proof.
  destruct (sdo_write_access_truncates 127 0x6083 0x00 70000 1000
              (world_with [])) as [Hframe [Hlog [_ Hok]]]; [lia|].
  destruct (Hok eq_refl) as [Hr Hout].
  split; [exact Hframe|]. split; [exact Hlog|]. split; [exact Hr|exact Hout].
Defined.

(** ** SDO client: correlation of the response *)

(** C2, as the code has it: when the request was sent and [channel.read]
    raises nothing but [CanNoMsg], [sdo_read_access] returns the 32-bit
    little-endian value of bytes 4-7 of the first received frame whose
    identifier is [0x600 + node_id - 0x80], that is [0x580 + node_id],
    provided the read that receives it starts before the deadline, however
    long that read then takes; the frames of other identifiers before it are
    dropped without a line being printed.  And when no frame with that
    identifier is received by a read that starts before the deadline, the
    result is [None]. *)
Theorem sdo_read_access_first_response
    (node_id index subindex timeout_ms : Z) (w : World) :
  0 <= subindex < 256 ->
  hd false (tx_fail w) = false ->
  0x600 + node_id - 0x80 = 0x580 + node_id /\
  (forall pre post d f,
      rx w = pre ++ mkRx d (RxFrame f) :: post ->
      id f = 0x580 + node_id ->
      forallb (fun ev => negb (has_id (0x580 + node_id) ev)
                         && negb (is_failure ev)) pre = true ->
      total_wait pre < timeout_ms ->
      (List.length (data f) <= 8)%nat ->
      let r := sdo_read_access node_id index subindex timeout_ms w in
      snd r = Ok (Some (sdo_payload_of f)) /\
      rx (fst r) = post /\
      out (fst r) = out w ++ [SentSdoRead index subindex;
                              ReceivedData (sdo_payload_of f)]) /\
  (forall pre post,
      rx w = pre ++ post ->
      forallb (fun ev => negb (has_id (0x580 + node_id) ev)
                         && negb (is_failure ev)) pre = true ->
      post = [] \/ timeout_ms <= total_wait pre ->
      snd (sdo_read_access node_id index subindex timeout_ms w) = Ok None).
Proof.
  intros Hs Htx.
  assert (Hcob : 0x600 + node_id - 0x80 = 0x580 + node_id) by lia.
  split; [exact Hcob|]. split.
  - intros pre post d f Hrx Hid Hpre Hlt Hlen. cbv zeta.
    rewrite sdo_read_access_eq by exact Hs. rewrite Htx, Hrx.
    rewrite <- Hcob in Hid, Hpre.
    rewrite (sdo_poll_accepts pre post d f _ _ _ Hid Hpre) by lia.
    cbv zeta. cbn [fst snd rx out p_rx p_out p_result].
    rewrite (payload_of_short_frame f Hlen), app_nil_r.
    repeat split.
  - intros pre post Hrx Hpre Hend.
    rewrite sdo_read_access_eq by exact Hs. rewrite Htx.
    cbv zeta. cbn [snd]. rewrite Hrx.
    apply sdo_poll_times_out.
    + rewrite Hcob. exact Hpre.
    + destruct Hend as [Hend|Hend]; [left; exact Hend|right; lia].
Qed.

Lemma sdo_read_access_first_response_witness :
  let w := world_with [heartbeat 127; mkRx 1000 CanNoMsg;
                       sdo_response 6 0x6041 0x31;
                       mkRx 5 (RxFrame (mkFrame 0x585
                                 [0; 0; 0; 0; 0x27; 0; 0; 0] canMSG_STD));
                       sdo_response 5 0x6041 0x40] in
  snd (sdo_read_access 5 0x6041 0x00 2000 w) = Ok (Some 0x27) /\
  rx (fst (sdo_read_access 5 0x6041 0x00 2000 w))
    = [sdo_response 5 0x6041 0x40] /\
  snd (sdo_read_access 5 0x6041 0x00 1000 w) = Ok None.
Proof.
  intros w.
  destruct (sdo_read_access_first_response 5 0x6041 0x00 2000 w)
    as [_ [Hfirst _]]; [lia|reflexivity|].
  destruct (sdo_read_access_first_response 5 0x6041 0x00 1000 w)
    as [_ [_ Hnone]]; [lia|reflexivity|].
  specialize (Hfirst
    [heartbeat 127; mkRx 1000 CanNoMsg; sdo_response 6 0x6041 0x31]
    [sdo_response 5 0x6041 0x40] 5%N
    (mkFrame 0x585 [0; 0; 0; 0; 0x27; 0; 0; 0] canMSG_STD)
    eq_refl eq_refl eq_refl).
  destruct Hfirst as [Hv [Hrx _]]; [cbn; lia|cbn; lia|].
  split; [exact Hv|]. split; [exact Hrx|].
  apply (Hnone
    [heartbeat 127; mkRx 1000 CanNoMsg; sdo_response 6 0x6041 0x31]
    [mkRx 5 (RxFrame (mkFrame 0x585 [0; 0; 0; 0; 0x27; 0; 0; 0] canMSG_STD));
     sdo_response 5 0x6041 0x40]);
    [reflexivity|reflexivity|right; cbn; lia].
Defined.

(** C2 fails as stated: with a timeout of 200 ms, an answer that takes
    900 ms to come does not arrive before the deadline, and yet it is
    returned, because the loop tests the deadline only before a read that
    may block for 1000 ms. *)
Lemma late_answer_is_returned :
  ~ arrives_before 200 5 (rx late_answer) /\
  snd (sdo_read_access 5 0x6041 0x00 200 late_answer) = Ok (Some 0x27).
Proof.
  split; [|reflexivity].
  intros [pre [d [f [post [Hrx [_ Hlt]]]]]].
  destruct pre as [|ev pre].
  - cbn in Hrx. injection Hrx as Hd _ _. subst d. cbn in Hlt. lia.
  - cbn in Hrx. injection Hrx as _ Hrest.
    destruct pre; discriminate Hrest.
Qed.

(** ** Heartbeat monitor *)

Lemma fetch_say_rx (m : Msg) (r : Fetch) : f_rx (fetch_say m r) = f_rx r.
Proof. reflexivity. Qed.

Lemma fetch_say_count (m : Msg) (r : Fetch) :
  f_count (fetch_say m r) = f_count r.
Proof. reflexivity. Qed.

Lemma fetch_say_clock (m : Msg) (r : Fetch) :
  f_clock (fetch_say m r) = f_clock r.
Proof. reflexivity. Qed.

Lemma fetch_say_result (m : Msg) (r : Fetch) :
  f_result (fetch_say m r) = f_result r.
Proof. reflexivity. Qed.

Lemma heartbeats_of_cons (node_id : Z) (ev : RxEvent) (evs : list RxEvent) :
  heartbeats_of node_id (ev :: evs) =
  (if has_id (0x700 + node_id) ev then 1 else 0) + heartbeats_of node_id evs.
Proof.
  unfold heartbeats_of. cbn [filter].
  destruct (has_id (0x700 + node_id) ev); cbn [List.length]; lia.
Qed.

(** As long as no read fails, the loop receives exactly the events whose
    read starts inside the window, and the counter grows by one for each
    frame of identifier [0x700 + 127] among them, and by nothing else. *)
Lemma fetch_loop_counts (evs : list RxEvent) (now end_time count : Z) :
  no_failure evs = true ->
  exists received,
    evs = received ++ f_rx (fetch_loop evs now end_time count) /\
    (forall pre ev post,
        received = pre ++ ev :: post -> now + total_wait pre < end_time) /\
    (f_rx (fetch_loop evs now end_time count) = [] \/
     end_time <= now + total_wait received) /\
    f_count (fetch_loop evs now end_time count)
      = count + heartbeats_of 127 received /\
    f_result (fetch_loop evs now end_time count) = Ok tt.
Proof.
  unfold no_failure. revert now count.
  induction evs as [|ev evs IH]; intros now count Hok.
  - exists []. split; [reflexivity|]. split.
    + intros pre ev post H. destruct pre; discriminate H.
    + split; [left; reflexivity|]. split; [cbn; lia|reflexivity].
  - cbn [forallb] in Hok. apply andb_prop in Hok. destruct Hok as [Hev Hok].
    cbn [fetch_loop]. destruct (now <? end_time) eqn:E.
    + apply Z.ltb_lt in E. cbv zeta.
      assert (Hstep : forall c k,
        (if has_id (0x700 + 127) ev then 1 else 0) = k ->
        let r := fetch_loop evs (now + Z.of_N (rx_wait ev)) end_time c in
        exists received,
          ev :: evs = received ++ f_rx r /\
          (forall pre e post,
              received = pre ++ e :: post ->
              now + total_wait pre < end_time) /\
          (f_rx r = [] \/ end_time <= now + total_wait received) /\
          f_count r = c - k + heartbeats_of 127 received /\
          f_result r = Ok tt).
      { intros c k Hk. cbv zeta.
        destruct (IH (now + Z.of_N (rx_wait ev)) c Hok)
          as [rec [Hrx [Hin [Hend [Hc Hr]]]]].
        exists (ev :: rec). split; [cbn [app]; f_equal; exact Hrx|].
        split.
        - intros pre e post H. destruct pre as [|p pre].
          + cbn. lia.
          + cbn [app] in H. injection H as <- H.
            specialize (Hin pre e post H).
            rewrite total_wait_cons. lia.
        - split.
          + destruct Hend as [Hend|Hend]; [left; exact Hend|right].
            rewrite total_wait_cons. lia.
          + split; [|exact Hr].
            rewrite heartbeats_of_cons, Hk, Hc. lia. }
      unfold has_id in Hstep. unfold is_failure in Hev.
      destruct (rx_outcome ev) as [frame| |].
      * destruct (id frame =? 0x700 + 127).
        -- rewrite fetch_say_rx, fetch_say_count, fetch_say_result.
           destruct (Hstep (count + 1) 1 eq_refl) as [rec [H1 [H2 [H3 [H4 H5]]]]].
           exists rec. repeat split; try assumption. rewrite H4. lia.
        -- destruct (Hstep count 0 eq_refl) as [rec [H1 [H2 [H3 [H4 H5]]]]].
           exists rec. repeat split; try assumption. rewrite H4. lia.
      * destruct (Hstep count 0 eq_refl) as [rec [H1 [H2 [H3 [H4 H5]]]]].
        exists rec. repeat split; try assumption. rewrite H4. lia.
      * discriminate Hev.
    + apply Z.ltb_ge in E. exists []. split; [reflexivity|]. split.
      * intros pre e post H. destruct pre; discriminate H.
      * split; [right; cbn; lia|]. split; [cbn; lia|reflexivity].
Qed.

(** The loop is left normally only once the window has closed. *)
Lemma fetch_loop_closes (evs : list RxEvent) (now end_time count : Z) :
  f_result (fetch_loop evs now end_time count) = Ok tt ->
  end_time <= f_clock (fetch_loop evs now end_time count).
Proof.
  revert now count. induction evs as [|ev evs IH]; intros now count.
  - intros _. cbn. apply idle_until_deadline. lia.
  - cbn [fetch_loop]. destruct (now <? end_time) eqn:E.
    + cbv zeta. destruct (rx_outcome ev) as [frame| |];
        [destruct (id frame =? 0x700 + 127)| |];
        rewrite ?fetch_say_clock, ?fetch_say_result;
        try apply IH.
      discriminate.
    + intros _. cbn. apply Z.ltb_ge in E. exact E.
Qed.

(** C4, as the code has it: whatever node is driven, and as long as
    [channel.read] raises nothing but [CanNoMsg], the counter of
    [fetch_telegrams] is the number of frames with identifier [0x700 + 127]
    among the events received during the window, frames of other
    identifiers leave it alone; when the window has closed the count is
    printed as the last line, and the function returns [None]. *)
Theorem fetch_telegrams_counts_node_127 (duration_seconds : Z) (w : World) :
  no_failure (rx w) = true ->
  let w' := fst (fetch_telegrams duration_seconds w) in
  counts_heartbeats_of 127 duration_seconds w /\
  snd (fetch_telegrams duration_seconds w) = Ok tt /\
  (exists lines,
     out w' = out w ++ FetchingCanMessages duration_seconds :: lines
              ++ [TotalHeartbeats (f_count (fetch_window duration_seconds w))]) /\
  rx w' = f_rx (fetch_window duration_seconds w) /\
  clock w + 1000 * duration_seconds <= clock w'.
Proof.
  intros Hok. cbv zeta.
  destruct (fetch_loop_counts (rx w) (clock w)
              (clock w + 1000 * duration_seconds) 0 Hok)
    as [rec [H1 [H2 [H3 [H4 H5]]]]].
  split.
  - unfold counts_heartbeats_of, fetch_window.
    exists rec. split; [exact H1|]. split.
    + intros pre ev post H. specialize (H2 pre ev post H). lia.
    + split; [|rewrite H4; lia].
      destruct H3 as [H3|H3]; [left; exact H3|right; lia].
  - unfold fetch_telegrams, fetch_window. cbv zeta. rewrite H5.
    rewrite print_eq. cbn [fst snd out rx clock].
    split; [reflexivity|]. split.
    + exists (f_out (fetch_loop (rx w) (clock w)
                       (clock w + 1000 * duration_seconds) 0)).
      rewrite <- app_assoc. reflexivity.
    + split; [reflexivity|]. apply fetch_loop_closes. exact H5.
Qed.

Lemma fetch_telegrams_counts_node_127_witness :
  let w := world_with [heartbeat 5; heartbeat 127; mkRx 1000 CanNoMsg;
                       heartbeat 127] in
  counts_heartbeats_of 127 1 w /\
  out (fst (fetch_telegrams 1 w))
    = [FetchingCanMessages 1; ReceivedHeartbeat 127; TotalHeartbeats 1] /\
  rx (fst (fetch_telegrams 1 w)) = [heartbeat 127].
Proof.
  intros w.
  destruct (fetch_telegrams_counts_node_127 1 w) as [Hc _]; [reflexivity|].
  split; [exact Hc|]. split; reflexivity.
Defined.

(** C4 fails as stated: while node 5 is driven, two heartbeats of node 5 and
    one of node 127 leave the count at 1. *)
Lemma fetch_telegrams_ignores_node_id :
  let w := world_with [heartbeat 5; heartbeat 5; heartbeat 127] in
  ~ counts_heartbeats_of 5 1 w /\
  out (fst (fetch_telegrams 1 w))
    = [FetchingCanMessages 1; ReceivedHeartbeat 127; TotalHeartbeats 1] /\
  snd (fetch_telegrams 1 w) = Ok tt.
Proof.
  cbv zeta. split; [|split; reflexivity].
  intros [received [Hrx [_ [_ Hcount]]]].
  change (f_rx (fetch_window 1
            (world_with [heartbeat 5; heartbeat 5; heartbeat 127])))
    with (@nil RxEvent) in Hrx.
  rewrite app_nil_r in Hrx. subst received.
  vm_compute in Hcount. discriminate Hcount.
Qed.

(** ** Drive state machine: the unguarded re-read *)

(** The fault reset of lines 87-89, when the channel accepts the write. *)
Lemma reset_fault_eq (node_id timeout_ms : Z) (w : World) :
  hd false (tx_fail w) = false ->
  reset_fault node_id timeout_ms w
  = (mkWorld (clock w + 1000 * 1) (rx w) (tl (tx_fail w))
       (tx_log w ++ [mkTx (write_request node_id 0x6040 0x00 0x80) true])
       ((out w ++ [IssuingFaultReset]) ++ [SentSdoWrite 0x6040 0x00 0x80]),
     Ok tt).
Proof.
  intros Htx. unfold reset_fault. step_print. step_write Htx.
  rewrite sleep_eq. reflexivity.
Qed.

(** The fault branch of lines 86-92 and 127-133, up to the re-read. *)
Lemma fault_branch_reread (node_id timeout_ms : Z) (w1 w3 : World)
    (reread : option Z) :
  hd false (tx_fail w1) = false ->
  sdo_read_access node_id 0x6041 0x00 timeout_ms
    (fst (reset_fault node_id timeout_ms w1)) = (w3, Ok reread) ->
  (print IssuingFaultReset ;;
   sdo_write_access node_id 0x6040 0x00 0x80 timeout_ms ;;
   sleep 1 ;;
   read_data <- sdo_read_access node_id 0x6041 0x00 timeout_ms ;;
   masked <- py_and read_data 0x0000004F ;;
   when (negb (masked =? 0x00000040)) (print PendingFaultNotCleared)) w1
  = (masked <- py_and reread 0x0000004F ;;
     when (negb (masked =? 0x00000040)) (print PendingFaultNotCleared)) w3.
Proof.
  intros Htx Hreread.
  rewrite (reset_fault_eq _ _ _ Htx) in Hreread. cbn [fst] in Hreread.
  step_print. step_write Htx. step_sleep. step Hreread. reflexivity.
Qed.

(** C9: in [enable_drive] and in [disable_drive] alike, when the first
    statusword read shows a fault ([& 0x4F == 0x08]), the fault reset is
    written, and the read after it returns [None], the function raises
    [TypeError] in the state the re-read left: no line is printed and no
    command is written after it. *)
Theorem fault_reset_reread_none_raises (node_id timeout_ms v : Z)
    (w w1 w3 : World) :
  sdo_read_access node_id 0x6041 0x00 timeout_ms w = (w1, Ok (Some v)) ->
  Z.land v 0x4F = 0x08 ->
  hd false (tx_fail w1) = false ->
  sdo_read_access node_id 0x6041 0x00 timeout_ms
    (fst (reset_fault node_id timeout_ms w1)) = (w3, Ok None) ->
  enable_drive node_id timeout_ms w = (w3, Raise TypeError) /\
  disable_drive node_id timeout_ms w = (w3, Raise TypeError).
Proof.
  intros Hread Hfault Htx Hreread.
  pose proof (fault_branch_reread _ _ _ _ _ Htx Hreread) as Hbranch.
  cbn [py_and] in Hbranch.
  split.
  - unfold enable_drive. cbv zeta. step Hread.
    change 0x0000004F with 0x4F. rewrite Hfault. cbn [Z.eqb Pos.eqb].
    apply bind_raise. rewrite Hbranch. reflexivity.
  - unfold disable_drive. cbv zeta. step Hread.
    change 0x0000004F with 0x4F. rewrite Hfault. cbn [Z.eqb Pos.eqb].
    apply bind_raise. rewrite Hbranch. reflexivity.
Qed.

Lemma fault_reset_reread_none_raises_witness :
  snd (enable_drive 127 1000 faulted_then_silent) = Raise TypeError /\
  snd (disable_drive 127 1000 faulted_then_silent) = Raise TypeError.
Proof.
  destruct (fault_reset_reread_none_raises 127 1000 0x0008
              faulted_then_silent
              (fst (sdo_read_access 127 0x6041 0x00 1000 faulted_then_silent))
              (fst (sdo_read_access 127 0x6041 0x00 1000
                 (fst (reset_fault 127 1000
                    (fst (sdo_read_access 127 0x6041 0x00 1000
                            faulted_then_silent)))))))
    as [He Hd]; [reflexivity|reflexivity|reflexivity|reflexivity|].
  rewrite He, Hd. split; reflexivity.
Defined.

(** ** Drive state machine: the command sequences *)

(** One round of the loop of [enable_drive] on a transport that does not
    fail: the command, then the statusword request, whatever the drive
    answers. *)
Lemma enable_round (node_id timeout_ms command : Z) (description : string)
    (w : World) :
  transport_ok w = true ->
  exists w',
    (print (Issuing description) ;;
     sdo_write_access node_id 0x6040 0x00 command timeout_ms ;;
     sleep 1 ;;
     read_data <- sdo_read_access node_id 0x6041 0x00 timeout_ms ;;
     ret tt) w = (w', Ok tt) /\
    frames w' = frames w ++ [write_request node_id 0x6040 0x00 command;
                             read_request node_id 0x6041 0x00] /\
    transport_ok w' = true.
Proof.
  intros Hok. step_print.
  match goal with
  | |- context [bind (sdo_write_access _ _ _ _ _) _ ?W] =>
      destruct (sdo_write_access_ok node_id 0x6040 command timeout_ms W Hok)
        as [w1 [E1 [F1 Hok1]]]
  end.
  step E1. step_sleep.
  match goal with
  | |- context [bind (sdo_read_access _ _ _ _) _ ?W] =>
      destruct (sdo_read_access_ok node_id 0x6041 timeout_ms W Hok1)
        as [w' [r [E [F Hok']]]]
  end.
  step E. exists w'. split; [reflexivity|]. split; [|exact Hok'].
  rewrite F. unfold frames at 1. cbn [tx_log]. fold (frames w1).
  rewrite F1. unfold frames at 1. cbn [tx_log]. fold (frames w).
  rewrite <- app_assoc. reflexivity.
Qed.

(** Lines 95-108: the four commands, in order, and the closing line. *)
Lemma enable_commands (node_id timeout_ms : Z) (w : World) :
  transport_ok w = true ->
  exists w',
    (for_each
       [(0x00, "disable voltage command"%string);
        (0x06, "shutdown command"%string);
        (0x07, "switch on command"%string);
        (0x0F, "switch on and enable command"%string)]
       (fun '(command, description) =>
          print (Issuing description) ;;
          sdo_write_access node_id 0x6040 0x00 command timeout_ms ;;
          sleep 1 ;;
          read_data <- sdo_read_access node_id 0x6041 0x00 timeout_ms ;;
          ret tt) ;;
     print DriveEnabledSuccessfully) w = (w', Ok tt) /\
    frames w' = frames w ++ enable_sequence node_id /\
    transport_ok w' = true.
Proof.
  intros Hok. cbn [for_each].
  destruct (enable_round node_id timeout_ms 0x00
              "disable voltage command" w Hok) as [wa [Ea [Fa Hoka]]].
  destruct (enable_round node_id timeout_ms 0x06
              "shutdown command" wa Hoka) as [wb [Eb [Fb Hokb]]].
  destruct (enable_round node_id timeout_ms 0x07
              "switch on command" wb Hokb) as [wc [Ec [Fc Hokc]]].
  destruct (enable_round node_id timeout_ms 0x0F
              "switch on and enable command" wc Hokc) as [wd [Ed [Fd Hokd]]].
  rewrite bind_assoc. step Ea.
  rewrite bind_assoc. step Eb.
  rewrite bind_assoc. step Ec.
  rewrite bind_assoc. step Ed.
  unfold ret at 1. unfold bind at 1. rewrite print_eq.
  eexists. split; [reflexivity|]. split; [|exact Hokd].
  unfold frames at 1. cbn [tx_log]. fold (frames wd).
  rewrite Fd, Fc, Fb, Fa. unfold enable_sequence.
  rewrite <- !app_assoc. reflexivity.
Qed.

(** In the fault-reaction-active state [enable_drive] prints that enabling
    is not possible and then runs the whole enable sequence. *)
Lemma enable_drive_when_fault_reaction_active (node_id timeout_ms v : Z)
    (w w1 : World) :
  sdo_read_access node_id 0x6041 0x00 timeout_ms w = (w1, Ok (Some v)) ->
  Z.land v 0x4F = 0x0F ->
  transport_ok w1 = true ->
  exists w',
    enable_drive node_id timeout_ms w = (w', Ok tt) /\
    frames w' = frames w1 ++ enable_sequence node_id.
Proof.
  intros Hread Hfra Hok. unfold enable_drive. cbv zeta. step Hread.
  change 0x0000004F with 0x4F. rewrite Hfra. cbn [Z.eqb Pos.eqb].
  step_print.
  match goal with
  | |- context [bind _ _ ?W] =>
      destruct (enable_commands node_id timeout_ms W Hok) as [w' [E [F _]]]
  end.
  exists w'. split; [exact E|]. rewrite F. reflexivity.
Qed.

(** Lines 136-144 on a transport that does not fail. *)
Lemma disable_commands (node_id timeout_ms : Z) (w : World) :
  transport_ok w = true ->
  exists w',
    (print IssuingDisableVoltage ;;
     sdo_write_access node_id 0x6040 0x00 0x00 timeout_ms ;;
     sleep 1 ;;
     read_data <- sdo_read_access node_id 0x6041 0x00 timeout_ms ;;
     when (match read_data with
           | Some v => negb (Z.land v 0x0000004F =? 0x00000040)
           | None => false
           end)
          (print WrongStatusWord) ;;
     sleep 1 ;;
     print DriveDisabledSuccessfully) w = (w', Ok tt) /\
    frames w' = frames w ++ [write_request node_id 0x6040 0x00 0x00;
                             read_request node_id 0x6041 0x00] /\
    transport_ok w' = true.
Proof.
  intros Hok. step_print.
  match goal with
  | |- context [bind (sdo_write_access _ _ _ _ _) _ ?W] =>
      destruct (sdo_write_access_ok node_id 0x6040 0x00 timeout_ms W Hok)
        as [w1 [E1 [F1 Hok1]]]
  end.
  step E1. step_sleep.
  match goal with
  | |- context [bind (sdo_read_access _ _ _ _) _ ?W] =>
      destruct (sdo_read_access_ok node_id 0x6041 timeout_ms W Hok1)
        as [w2 [r [E [F Hok2]]]]
  end.
  step E.
  assert (Hframes : frames w2 = frames w ++
            [write_request node_id 0x6040 0x00 0x00;
             read_request node_id 0x6041 0x00]).
  { rewrite F. unfold frames at 1. cbn [tx_log]. fold (frames w1).
    rewrite F1. unfold frames at 1. cbn [tx_log]. fold (frames w).
    rewrite <- app_assoc. reflexivity. }
  unfold when.
  destruct (match r with
            | Some v0 => negb (Z.land v0 79 =? 64)
            | None => false
            end).
  - step_print. step_sleep. rewrite print_eq. eexists.
    split; [reflexivity|]. split; [exact Hframes|exact Hok2].
  - erewrite bind_ok; [|reflexivity]. step_sleep. rewrite print_eq.
    eexists. split; [reflexivity|]. split; [exact Hframes|exact Hok2].
Qed.

(** Likewise [disable_drive] goes on to write the disable-voltage command. *)
Lemma disable_drive_when_fault_reaction_active (node_id timeout_ms v : Z)
    (w w1 : World) :
  sdo_read_access node_id 0x6041 0x00 timeout_ms w = (w1, Ok (Some v)) ->
  Z.land v 0x4F = 0x0F ->
  transport_ok w1 = true ->
  exists w',
    disable_drive node_id timeout_ms w = (w', Ok tt) /\
    frames w' = frames w1 ++ [write_request node_id 0x6040 0x00 0x00;
                              read_request node_id 0x6041 0x00].
Proof.
  intros Hread Hfra Hok. unfold disable_drive. cbv zeta. step Hread.
  change 0x0000004F with 0x4F. rewrite Hfra. cbn [Z.eqb Pos.eqb].
  step_print.
  match goal with
  | |- context [bind _ _ ?W] =>
      destruct (disable_commands node_id timeout_ms W Hok) as [w' [E [F _]]]
  end.
  exists w'. split; [exact E|]. rewrite F. reflexivity.
Qed.

(** C1, on the code: with the statusword at 0x000F (fault reaction active)
    [enable_drive] prints that enabling is not possible and still writes the
    four commands 0x00, 0x06, 0x07, 0x0F to the controlword, and
    [disable_drive] prints that disabling is not possible and still writes
    0x00: the frames sent after the first read are not empty. *)
Theorem fault_reaction_active_is_still_commanded :
  let w := fault_reaction_active in
  let first_read := sdo_read_access 127 0x6041 0x00 1000 w in
  snd first_read = Ok (Some 0x000F) /\
  Z.land 0x000F 0x4F = 0x0F /\
  In EnableNotPossibleFaultReactionActive
     (out (fst (enable_drive 127 1000 w))) /\
  frames (fst (enable_drive 127 1000 w))
    = frames (fst first_read) ++ enable_sequence 127 /\
  In DisableNotPossibleFaultReactionActive
     (out (fst (disable_drive 127 1000 w))) /\
  frames (fst (disable_drive 127 1000 w))
    = frames (fst first_read) ++ [write_request 127 0x6040 0x00 0x00;
                                  read_request 127 0x6041 0x00].
Proof.
  cbv zeta. split; [reflexivity|]. split; [reflexivity|].
  split; [vm_compute; tauto|]. split; [reflexivity|].
  split; [vm_compute; tauto|]. reflexivity.
Qed.

(** After a fault reset whose re-read returns a statusword, the reset
    command comes first and the four enable commands follow in order, each
    with its statusword read. *)
Lemma enable_drive_after_fault_reset (node_id timeout_ms v v' : Z)
    (w w1 w3 : World) :
  sdo_read_access node_id 0x6041 0x00 timeout_ms w = (w1, Ok (Some v)) ->
  Z.land v 0x4F = 0x08 ->
  transport_ok w1 = true ->
  sdo_read_access node_id 0x6041 0x00 timeout_ms
    (fst (reset_fault node_id timeout_ms w1)) = (w3, Ok (Some v')) ->
  exists w',
    enable_drive node_id timeout_ms w = (w', Ok tt) /\
    frames w' = frames w1
                ++ [write_request node_id 0x6040 0x00 0x80;
                    read_request node_id 0x6041 0x00]
                ++ enable_sequence node_id.
Proof.
  intros Hread Hfault Hok Hreread.
  pose proof (transport_ok_accepts w1 Hok) as Htx.
  pose proof (fault_branch_reread _ _ _ _ _ Htx Hreread) as Hbranch.
  assert (Hok2 : transport_ok (fst (reset_fault node_id timeout_ms w1)) = true).
  { rewrite (reset_fault_eq _ _ _ Htx). cbn [fst].
    apply (transport_ok_next w1 _ []); [reflexivity|reflexivity|exact Hok]. }
  assert (Hok3 : transport_ok w3 = true).
  { pose proof (sdo_read_access_keeps_ok node_id 0x6041 timeout_ms _ Hok2) as H.
    rewrite Hreread in H. exact H. }
  assert (F3 : frames w3 = frames w1
                 ++ [write_request node_id 0x6040 0x00 0x80;
                     read_request node_id 0x6041 0x00]).
  { destruct (sdo_read_access_frames node_id 0x6041 timeout_ms
                (fst (reset_fault node_id timeout_ms w1)))
      as [w3' [r [E [F _]]]].
    rewrite Hreread in E. injection E as <- _. rewrite F.
    rewrite (reset_fault_eq _ _ _ Htx). cbn [fst].
    unfold frames at 1. cbn [tx_log]. rewrite map_app, <- app_assoc.
    reflexivity. }
  unfold enable_drive. cbv zeta. step Hread.
  change 0x0000004F with 0x4F. rewrite Hfault. cbn [Z.eqb Pos.eqb].
  unfold bind at 1. rewrite Hbranch. cbn [py_and].
  erewrite bind_ok; [|reflexivity]. cbv beta.
  assert (Hwhen : exists w4,
            when (negb (Z.land v' 79 =? 64)) (print PendingFaultNotCleared) w3
              = (w4, Ok tt) /\ frames w4 = frames w3 /\
            transport_ok w4 = true).
  { unfold when. destruct (negb (Z.land v' 79 =? 64)).
    - rewrite print_eq. eexists. split; [reflexivity|].
      split; [reflexivity|exact Hok3].
    - eexists. split; [reflexivity|]. split; [reflexivity|exact Hok3]. }
  destruct Hwhen as [w4 [E4 [F4 Hok4]]]. rewrite E4.
  destruct (enable_commands node_id timeout_ms w4 Hok4) as [w' [E' [F' _]]].
  exists w'. split; [exact E'|].
  rewrite F', F4, F3, <- !app_assoc. reflexivity.
Qed.

(** C5, on the code: with the statusword at 0x0008 (fault) and no answer to
    the read that follows the fault reset, [enable_drive] writes 0x80 and
    then raises [TypeError]; none of the four enable commands is written. *)
Theorem fault_reset_without_answer_stops_enable :
  let w := faulted_then_silent in
  snd (sdo_read_access 127 0x6041 0x00 1000 w) = Ok (Some 0x0008) /\
  Z.land 0x0008 0x4F = 0x08 /\
  snd (enable_drive 127 1000 w) = Raise TypeError /\
  frames (fst (enable_drive 127 1000 w))
    = [read_request 127 0x6041 0x00;
       write_request 127 0x6040 0x00 0x80;
       read_request 127 0x6041 0x00].
Proof.
  cbv zeta. repeat split.
Qed.

(** ** Which frames a computation can send *)

Section Emission.

Variable P : Frame -> bool.

Lemma only_sends_nothing {A} (m : M A) :
  (forall w, tx_log (fst (m w)) = tx_log w) -> only_sends P m.
Proof.
  intros H w. exists []. unfold frames. rewrite H, app_nil_r.
  split; reflexivity.
Qed.

Lemma only_sends_ret {A} (a : A) : only_sends P (ret a).
Proof. apply only_sends_nothing. reflexivity. Qed.

Lemma only_sends_raise {A} (e : exn) : only_sends P (@raise A e).
Proof. apply only_sends_nothing. reflexivity. Qed.

Lemma only_sends_print (m : Msg) : only_sends P (print m).
Proof. apply only_sends_nothing. reflexivity. Qed.

Lemma only_sends_sleep (seconds : Z) : only_sends P (sleep seconds).
Proof. apply only_sends_nothing. reflexivity. Qed.

Lemma only_sends_py_and (x : option Z) (mask : Z) :
  only_sends P (py_and x mask).
Proof. destruct x; [apply only_sends_ret|apply only_sends_raise]. Qed.

Lemma only_sends_fetch_telegrams (duration_seconds : Z) :
  only_sends P (fetch_telegrams duration_seconds).
Proof.
  apply only_sends_nothing. intros w. unfold fetch_telegrams. cbv zeta.
  destruct (f_result _); reflexivity.
Qed.

Lemma only_sends_bind {A B} (m : M A) (k : A -> M B) :
  only_sends P m -> (forall a, only_sends P (k a)) ->
  only_sends P (bind m k).
Proof.
  intros Hm Hk w. destruct (Hm w) as [fs [Hfs HP]]. unfold bind.
  destruct (m w) as [w' [a|e]]; cbn [fst] in Hfs.
  - destruct (Hk a w') as [gs [Hgs HQ]].
    exists (fs ++ gs). split.
    + rewrite Hgs, Hfs, app_assoc. reflexivity.
    + rewrite forallb_app, HP, HQ. reflexivity.
  - exists fs. split; assumption.
Qed.

Lemma only_sends_when (c : bool) (body : M unit) :
  only_sends P body -> only_sends P (when c body).
Proof. intros H. destruct c; [exact H|apply only_sends_ret]. Qed.

Lemma only_sends_for_each {A} (l : list A) (body : A -> M unit) :
  (forall x, only_sends P (body x)) -> only_sends P (for_each l body).
Proof.
  intros H. induction l as [|x l IH]; cbn [for_each].
  - apply only_sends_ret.
  - apply only_sends_bind; [apply H|intros _; exact IH].
Qed.

Lemma only_sends_read (node_id index timeout_ms : Z) :
  P (read_request node_id index 0x00) = true ->
  only_sends P (sdo_read_access node_id index 0x00 timeout_ms).
Proof.
  intros HP w.
  destruct (sdo_read_access_frames node_id index timeout_ms w)
    as [w' [r [E [F _]]]].
  rewrite E. exists [read_request node_id index 0x00].
  split; [exact F|]. cbn [forallb]. rewrite HP. reflexivity.
Qed.

Lemma only_sends_write (node_id index value timeout_ms : Z) :
  P (write_request node_id index 0x00 value) = true ->
  only_sends P (sdo_write_access node_id index 0x00 value timeout_ms).
Proof.
  intros HP w.
  destruct (sdo_write_access_frames node_id index value timeout_ms w)
    as [w' [r [E F]]].
  rewrite E. exists [write_request node_id index 0x00 value].
  split; [exact F|]. cbn [forallb]. rewrite HP. reflexivity.
Qed.

Section Drive.

Variables node_id timeout_ms : Z.
Hypothesis P_statusword : P (read_request node_id 0x6041 0x00) = true.
Hypothesis P_controlword :
  forall command, P (write_request node_id 0x6040 0x00 command) = true.

Lemma only_sends_clear_fault (read_data : option Z) (not_possible : Msg) :
  only_sends P
    match read_data with
    | Some v =>
        if Z.land v 0x0000004F =? 0x0000000F then print not_possible
        else if Z.land v 0x0000004F =? 0x00000008 then
          print IssuingFaultReset ;;
          sdo_write_access node_id 0x6040 0x00 0x80 timeout_ms ;;
          sleep 1 ;;
          read_data <- sdo_read_access node_id 0x6041 0x00 timeout_ms ;;
          masked <- py_and read_data 0x0000004F ;;
          when (negb (masked =? 0x00000040)) (print PendingFaultNotCleared)
        else ret tt
    | None => ret tt
    end.
Proof.
  destruct read_data as [v|]; [|apply only_sends_ret].
  destruct (Z.land v 0x0000004F =? 0x0000000F); [apply only_sends_print|].
  destruct (Z.land v 0x0000004F =? 0x00000008); [|apply only_sends_ret].
  apply only_sends_bind; [apply only_sends_print|intros _].
  apply only_sends_bind;
    [apply only_sends_write, P_controlword|intros _].
  apply only_sends_bind; [apply only_sends_sleep|intros _].
  apply only_sends_bind;
    [apply only_sends_read, P_statusword|intros r].
  apply only_sends_bind; [apply only_sends_py_and|intros masked].
  apply only_sends_when, only_sends_print.
Qed.

Lemma only_sends_enable_drive :
  only_sends P (enable_drive node_id timeout_ms).
Proof.
  unfold enable_drive. cbv zeta.
  apply only_sends_bind;
    [apply only_sends_read, P_statusword|intros read_data].
  apply only_sends_bind; [apply only_sends_clear_fault|intros _].
  apply only_sends_bind; [|intros _; apply only_sends_print].
  apply only_sends_for_each. intros [command description].
  apply only_sends_bind; [apply only_sends_print|intros _].
  apply only_sends_bind;
    [apply only_sends_write, P_controlword|intros _].
  apply only_sends_bind; [apply only_sends_sleep|intros _].
  apply only_sends_bind;
    [apply only_sends_read, P_statusword|intros _; apply only_sends_ret].
Qed.

Lemma only_sends_disable_drive :
  only_sends P (disable_drive node_id timeout_ms).
Proof.
  unfold disable_drive. cbv zeta.
  apply only_sends_bind;
    [apply only_sends_read, P_statusword|intros read_data].
  apply only_sends_bind; [apply only_sends_clear_fault|intros _].
  apply only_sends_bind; [apply only_sends_print|intros _].
  apply only_sends_bind;
    [apply only_sends_write, P_controlword|intros _].
  apply only_sends_bind; [apply only_sends_sleep|intros _].
  apply only_sends_bind;
    [apply only_sends_read, P_statusword|intros r].
  apply only_sends_bind;
    [apply only_sends_when, only_sends_print|intros _].
  apply only_sends_bind; [apply only_sends_sleep|intros _].
  apply only_sends_print.
Qed.

(** Lines 188-204 send only statusword reads, controlword writes and the
    velocity setpoint. *)
Lemma only_sends_move_run (speed : Z) (disable_after_motion : bool)
    (movement_duration : Z) :
  P (write_request node_id 0x60FF 0x00 speed) = true ->
  only_sends P (move_run node_id speed disable_after_motion
                  movement_duration timeout_ms).
Proof.
  intros P_velocity. unfold move_run, move_setpoint.
  apply only_sends_bind;
    [apply only_sends_read, P_statusword|intros status_word].
  apply only_sends_bind;
    [apply only_sends_when, only_sends_enable_drive|intros _].
  apply only_sends_bind; [apply only_sends_print|intros _].
  apply only_sends_bind;
    [apply only_sends_write, P_velocity|intros _].
  apply only_sends_bind.
  - apply only_sends_when.
    apply only_sends_bind; [apply only_sends_print|intros _].
    apply only_sends_fetch_telegrams.
  - intros _. apply only_sends_when, only_sends_disable_drive.
Qed.

End Drive.

End Emission.

(** ** Motion controller *)

Lemma on_wire_eq (value : Z) : on_wire value = value mod 2 ^ 16.
Proof.
  unfold on_wire, sdo_payload_of, write_request. cbn [data nth].
  rewrite <- low_two_bytes. lia.
Qed.

Lemma on_wire_small (value : Z) : 0 <= value < 2 ^ 16 -> on_wire value = value.
Proof. intros H. rewrite on_wire_eq. apply Z.mod_small. exact H. Qed.

Lemma sent_by_app {A} (m : M A) (w : World) (fs : list Frame) :
  frames (fst (m w)) = frames w ++ fs -> sent_by m w = fs.
Proof.
  intros H. unfold sent_by. rewrite H.
  rewrite skipn_app, skipn_all, Nat.sub_diag. reflexivity.
Qed.

Lemma config_writes_none (fs : list Frame) :
  forallb (fun f => negb (is_config_write f)) fs = true ->
  config_writes fs = [].
Proof.
  unfold config_writes. induction fs as [|f fs IH]; intros H; [reflexivity|].
  cbn [forallb] in H. apply andb_prop in H. destruct H as [Hf Hfs].
  cbn [filter]. apply negb_true_iff in Hf. rewrite Hf. apply IH, Hfs.
Qed.

(** C3, as the code has it: for a profile whose acceleration and
    deceleration lie in 0..65535, a call of [move_motor_in_profile_velocity]
    whose reads of 0x6083, 0x6084 and 0x6061 report what an earlier call with
    the same profile wrote sends no write to 0x6083, 0x6084 or 0x6060,
    whatever world the earlier call left. *)
Theorem second_call_rewrites_nothing (node_id speed accel decel : Z)
    (disable_after_motion : bool) (movement_duration timeout_ms : Z)
    (w : World) :
  0 <= accel < 2 ^ 16 ->
  0 <= decel < 2 ^ 16 ->
  rewrites_nothing node_id speed accel decel disable_after_motion
    movement_duration timeout_ms w.
Proof.
  intros Ha Hd w1 w2 w3.
  rewrite (on_wire_small accel Ha), (on_wire_small decel Hd),
    (on_wire_small 3) by lia.
  intros H1 H2 H3.
  assert (Hramps : move_ramps node_id accel decel timeout_ms w = (w2, Ok tt)).
  { unfold move_ramps. step H1. step H2.
    unfold py_ne. rewrite !Z.eqb_refl. reflexivity. }
  rewrite Hramps in H3. cbn [fst] in H3.
  assert (Hmode : move_mode node_id timeout_ms w2 = (w3, Ok tt)).
  { unfold move_mode. step H3. reflexivity. }
  set (quiet := fun f => negb (is_config_write f)).
  destruct (only_sends_move_run quiet node_id timeout_ms
              eq_refl (fun _ => eq_refl) speed disable_after_motion
              movement_duration eq_refl w3) as [fs [Hfs Hquiet]].
  subst quiet.
  destruct (sdo_read_access_frames node_id 0x6083 timeout_ms w)
    as [w1' [r1 [E1 [F1 _]]]].
  destruct (sdo_read_access_frames node_id 0x6084 timeout_ms w1)
    as [w2' [r2 [E2 [F2 _]]]].
  destruct (sdo_read_access_frames node_id 0x6061 timeout_ms w2)
    as [w3' [r3 [E3 [F3 _]]]].
  rewrite H1 in E1. injection E1 as <- _.
  rewrite H2 in E2. injection E2 as <- _.
  rewrite H3 in E3. injection E3 as <- _.
  unfold move_motor_in_profile_velocity.
  rewrite (sent_by_app _ w
             ([read_request node_id 0x6083 0x00;
               read_request node_id 0x6084 0x00;
               read_request node_id 0x6061 0x00] ++ fs)).
  - apply config_writes_none. rewrite forallb_app, Hquiet. reflexivity.
  - rewrite (bind_ok _ _ _ _ _ Hramps), (bind_ok _ _ _ _ _ Hmode).
    rewrite Hfs, F3, F2, F1, <- !app_assoc. reflexivity.
Qed.

Lemma second_call_rewrites_nothing_witness :
  config_writes
    (sent_by (move_motor_in_profile_velocity 127 800 1000 1000 false 0 1000)
             configured_drive) = [].
Proof.
  eapply (second_call_rewrites_nothing 127 800 1000 1000 false 0 1000
            configured_drive);
    [lia|lia|vm_compute; reflexivity..].
Defined.

(** C3 fails as stated: a first call with acceleration 70000 writes 0x6083
    with the payload 4464; the second call with the same profile reads back
    4464, 1000 and 3, finds [4464 != 70000], and writes 0x6083 and 0x6084
    again. *)
Lemma truncated_ramp_is_rewritten :
  let call := move_motor_in_profile_velocity 127 800 70000 1000 false 0 1000 in
  let w := fst (call (world_with two_calls_stream)) in
  snd (call (world_with two_calls_stream)) = Ok tt /\
  In (write_request 127 0x6083 0x00 70000) (frames w) /\
  on_wire 70000 = 4464 /\
  config_writes (sent_by call w)
    = [write_request 127 0x6083 0x00 70000;
       write_request 127 0x6084 0x00 1000] /\
  ~ rewrites_nothing 127 800 70000 1000 false 0 1000 w.
Proof.
  cbv zeta. split; [vm_compute; reflexivity|]. split; [vm_compute; tauto|].
  split; [vm_compute; reflexivity|]. split; [vm_compute; reflexivity|].
  intros H.
  assert (Hnone :
    config_writes
      (sent_by
         (move_motor_in_profile_velocity 127 800 70000 1000 false 0 1000)
         (fst (move_motor_in_profile_velocity 127 800 70000 1000 false 0 1000
                 (world_with two_calls_stream)))) = []).
  { eapply H; vm_compute; reflexivity. }
  vm_compute in Hnone. discriminate Hnone.
Qed.

(** ** Motion controller: the unreadable statusword *)



(** ** SDO client: failures, deadlines and what the correlation ignores *)

(** X1: when [channel.write] refuses the request, [sdo_read_access] does
    not return [None]: the handler of line 40 names
    [canlib.CanlibException], which does not resolve, so the call raises
    [AttributeError].  Nothing is printed, nothing is read and no time
    passes. *)
Theorem sdo_read_access_send_failure
    (node_id index subindex timeout_ms : Z) (w : World) :
  0 <= subindex < 256 ->
  hd false (tx_fail w) = true ->
  let w' := fst (sdo_read_access node_id index subindex timeout_ms w) in
  snd (sdo_read_access node_id index subindex timeout_ms w)
    = Raise AttributeError /\
  rx w' = rx w /\
  clock w' = clock w /\
  List.length (tx_log w') = S (List.length (tx_log w)) /\
  out w' = out w.
Proof.
  intros Hs Hfail. cbv zeta. rewrite sdo_read_access_eq by exact Hs.
  rewrite Hfail. cbn [fst snd rx clock tx_log out].
  rewrite length_app. cbn [List.length]. repeat split. lia.
Qed.

Lemma sdo_read_access_send_failure_witness :
  snd (sdo_read_access 127 0x6083 0x00 1000 refusing_channel)
    = Raise AttributeError /\
  out (fst (sdo_read_access 127 0x6083 0x00 1000 refusing_channel)) = [].
Proof.
  destruct (sdo_read_access_send_failure 127 0x6083 0x00 1000
              refusing_channel) as [Hr [_ [_ [_ Hout]]]]; [lia|reflexivity|].
  split; [exact Hr|exact Hout].
Defined.

(** X2: an exception of [channel.read] other than [CanNoMsg] is not
    handled either: [sdo_read_access] raises [AttributeError] at that read,
    before the deadline, without printing "Error reading SDO response" or
    the timeout line; the events behind the failure stay in the queue. *)
Theorem sdo_read_access_receive_failure
    (node_id index subindex timeout_ms : Z) (w : World)
    (pre post : list RxEvent) (d : N) :
  0 <= subindex < 256 ->
  hd false (tx_fail w) = false ->
  rx w = pre ++ mkRx d CanlibException :: post ->
  forallb (fun ev => negb (has_id (0x580 + node_id) ev)
                     && negb (is_failure ev)) pre = true ->
  total_wait pre < timeout_ms ->
  let w' := fst (sdo_read_access node_id index subindex timeout_ms w) in
  snd (sdo_read_access node_id index subindex timeout_ms w)
    = Raise AttributeError /\
  rx w' = post /\
  clock w' = clock w + total_wait pre + Z.of_N d /\
  out w' = out w ++ [SentSdoRead index subindex].
Proof.
  intros Hs Htx Hrx Hpre Hlt. cbv zeta.
  rewrite sdo_read_access_eq by exact Hs. rewrite Htx, Hrx.
  assert (Hcob : 0x600 + node_id - 0x80 = 0x580 + node_id) by lia.
  rewrite <- Hcob in Hpre.
  rewrite (sdo_poll_fails pre post d _ _ _ Hpre) by lia.
  cbn. repeat split.
Qed.

Lemma sdo_read_access_receive_failure_witness :
  snd (sdo_read_access 127 0x6041 0x00 1000 failure_then_answer)
    = Raise AttributeError /\
  rx (fst (sdo_read_access 127 0x6041 0x00 1000 failure_then_answer))
    = [sdo_response 127 0x6041 0x0027].
Proof.
  destruct (sdo_read_access_receive_failure 127 0x6041 0x00 1000
              failure_then_answer [heartbeat 127]
              [sdo_response 127 0x6041 0x0027] 20%N)
    as [Hr [Hrx _]];
    [lia|reflexivity|reflexivity|reflexivity|cbn; lia|].
  split; [exact Hr|exact Hrx].
Defined.

(** X3: with a timeout that is not positive the loop body never runs:
    [sdo_read_access] sends its request, reads nothing, and returns [None]
    even when the answer is already waiting. *)
Theorem sdo_read_access_without_time
    (node_id index subindex timeout_ms : Z) (w : World) :
  0 <= subindex < 256 ->
  hd false (tx_fail w) = false ->
  timeout_ms <= 0 ->
  let w' := fst (sdo_read_access node_id index subindex timeout_ms w) in
  snd (sdo_read_access node_id index subindex timeout_ms w) = Ok None /\
  rx w' = rx w /\
  clock w' = clock w /\
  frames w' = frames w ++ [read_request node_id index subindex].
Proof.
  intros Hs Htx Ht. cbv zeta.
  rewrite sdo_read_access_eq by exact Hs. rewrite Htx.
  rewrite sdo_poll_expired by lia.
  cbn [fst snd rx clock p_result p_rx p_clock].
  repeat split. apply frames_app.
Qed.

Lemma sdo_read_access_without_time_witness :
  snd (sdo_read_access 127 0x6041 0x00 0 ordinary_drive) = Ok None /\
  rx (fst (sdo_read_access 127 0x6041 0x00 0 ordinary_drive))
    = rx ordinary_drive.
Proof.
  destruct (sdo_read_access_without_time 127 0x6041 0x00 0 ordinary_drive)
    as [Hr [Hrx _]]; [lia|reflexivity|lia|].
  split; [exact Hr|exact Hrx].
Defined.

(** X4: when no read of the transport fails and each returns within its
    1000 ms, a call of [sdo_read_access] that times out (positive timeout,
    request sent) returns no earlier than [timeout_ms] after it began and
    less than 1000 ms later than that. *)
Theorem sdo_read_access_timeout_window
    (node_id index subindex timeout_ms : Z) (w : World) :
  0 <= subindex < 256 ->
  hd false (tx_fail w) = false ->
  0 < timeout_ms ->
  no_failure (rx w) = true ->
  within_read_timeout (rx w) = true ->
  snd (sdo_read_access node_id index subindex timeout_ms w) = Ok None ->
  let w' := fst (sdo_read_access node_id index subindex timeout_ms w) in
  clock w + timeout_ms <= clock w' < clock w + timeout_ms + 1000.
Proof.
  intros Hs Htx Ht Hok Hprompt Hnone. cbv zeta.
  rewrite sdo_read_access_eq in * by exact Hs. rewrite Htx in *.
  cbv zeta in *. cbn [fst snd clock] in *. split.
  - apply sdo_poll_deadline; assumption.
  - apply sdo_poll_overshoot; [assumption|lia].
Qed.

Lemma sdo_read_access_timeout_window_witness :
  let w := world_with [heartbeat 127; mkRx 1000 CanNoMsg; heartbeat 5] in
  clock w + 1500
    <= clock (fst (sdo_read_access 127 0x6041 0x00 1500 w))
    < clock w + 1500 + 1000.
Proof.
  intros w.
  apply (sdo_read_access_timeout_window 127 0x6041 0x00 1500 w);
    [lia|reflexivity|lia|reflexivity|reflexivity|reflexivity].
Defined.

(** X5: the response is correlated by identifier alone.  Which frame is
    accepted, the value returned, the events consumed and the time taken are
    the same whatever object was asked for: [sdo_read_access] never looks at
    the index, the subindex or the command byte of what it receives. *)
Theorem sdo_read_access_ignores_object
    (node_id index1 subindex1 index2 subindex2 timeout_ms : Z) (w : World) :
  0 <= subindex1 < 256 ->
  0 <= subindex2 < 256 ->
  let r1 := sdo_read_access node_id index1 subindex1 timeout_ms w in
  let r2 := sdo_read_access node_id index2 subindex2 timeout_ms w in
  snd r1 = snd r2 /\
  rx (fst r1) = rx (fst r2) /\
  clock (fst r1) = clock (fst r2).
Proof.
  intros H1 H2. cbv zeta. rewrite !sdo_read_access_eq by assumption.
  destruct (hd false (tx_fail w)); cbv zeta; repeat split.
Qed.

Lemma sdo_read_access_ignores_object_witness :
  snd (sdo_read_access 127 0x6083 0x00 1000 ordinary_drive)
  = snd (sdo_read_access 127 0x6041 0x00 1000 ordinary_drive) /\
  snd (sdo_read_access 127 0x6083 0x00 1000 ordinary_drive) = Ok (Some 0x40).
Proof.
  destruct (sdo_read_access_ignores_object 127 0x6083 0x00 0x6041 0x00 1000
              ordinary_drive) as [H _]; [lia|lia|].
  split; [exact H|reflexivity].
Defined.

(** X6: [sdo_write_access] does not take the drive's confirmation off the
    bus, and the next [sdo_read_access] cannot tell it from an answer: when
    the drive confirms the download (command 0x60, identifier
    [0x580 + node_id]), a read that follows the write returns 0, the
    confirmation's empty payload, and leaves the real answer in the
    queue. *)
Theorem write_confirmation_is_taken_for_the_answer
    (node_id index value index' timeout_ms : Z) (w : World)
    (d : N) (rest : list RxEvent) :
  hd false (tx_fail w) = false ->
  hd false (tl (tx_fail w)) = false ->
  0 < timeout_ms ->
  rx w = mkRx d (RxFrame (sdo_download_confirmation node_id index)) :: rest ->
  let r := (sdo_write_access node_id index 0x00 value timeout_ms ;;
            sdo_read_access node_id index' 0x00 timeout_ms) w in
  snd r = Ok (Some 0) /\ rx (fst r) = rest.
Proof.
  intros Htx1 Htx2 Ht Hrx. cbv zeta.
  step_write Htx1.
  rewrite sdo_read_access_eq by lia.
  cbn [tx_fail rx clock]. rewrite Htx2, Hrx. cbv zeta.
  cbn [sdo_poll].
  replace (clock w <? clock w + timeout_ms) with true
    by (symmetry; apply Z.ltb_lt; lia).
  cbv zeta. cbn [rx_outcome sdo_download_confirmation id].
  replace (0x580 + node_id =? 0x600 + node_id - 0x80) with true
    by (symmetry; apply Z.eqb_eq; lia).
  cbn. split; reflexivity.
Qed.

Lemma write_confirmation_is_taken_for_the_answer_witness :
  let r := (sdo_write_access 127 0x6040 0x00 0x0F 1000 ;;
            sdo_read_access 127 0x6041 0x00 1000) confirming_drive in
  snd r = Ok (Some 0) /\ rx (fst r) = [sdo_response 127 0x6041 0x0027].
Proof.
  apply (write_confirmation_is_taken_for_the_answer 127 0x6040 0x0F 0x6041
           1000 confirming_drive 1%N [sdo_response 127 0x6041 0x0027]);
    [reflexivity|reflexivity|lia|reflexivity].
Defined.

(** ** SDO client: the range of the value read *)

Lemma int_from_bytes_little_bound (bs : list Z) :
  forallb is_byte bs = true ->
  0 <= int_from_bytes_little bs < 256 ^ Z.of_nat (List.length bs).
Proof.
  induction bs as [|b bs IH]; intros H.
  - cbn. lia.
  - cbn [forallb] in H. apply andb_prop in H. destruct H as [Hb Hbs].
    specialize (IH Hbs). unfold is_byte in Hb.
    apply andb_prop in Hb. destruct Hb as [Hb0 Hb1].
    apply Z.leb_le in Hb0. apply Z.ltb_lt in Hb1.
    cbn [int_from_bytes_little List.length].
    rewrite Nat2Z.inj_succ, Z.pow_succ_r by lia. lia.
Qed.

Lemma forallb_skipn {A} (p : A -> bool) (n : nat) (l : list A) :
  forallb p l = true -> forallb p (skipn n l) = true.
Proof.
  revert l. induction n as [|n IH]; intros l H; [exact H|].
  destruct l as [|x l]; [reflexivity|].
  cbn [forallb] in H. apply andb_prop in H. cbn [skipn]. apply IH, H.
Qed.

Lemma payload_range (f : Frame) :
  frame_well_formed f = true ->
  0 <= int_from_bytes_little (skipn 4 (data f)) < 2 ^ 32.
Proof.
  unfold frame_well_formed. intros H.
  apply andb_prop in H. destruct H as [Hlen Hbytes].
  apply Nat.leb_le in Hlen.
  pose proof (int_from_bytes_little_bound (skipn 4 (data f))
                (forallb_skipn is_byte 4 (data f) Hbytes)) as Hb.
  rewrite length_skipn in Hb.
  assert (Hpow : 256 ^ Z.of_nat (List.length (data f) - 4) <= 256 ^ 4).
  { apply Z.pow_le_mono_r; lia. }
  change (256 ^ 4) with (2 ^ 32) in Hpow. lia.
Qed.

Lemma sdo_poll_range (evs : list RxEvent) (now end_time cob_id v : Z) :
  rx_well_formed evs = true ->
  p_result (sdo_poll evs now end_time cob_id) = Ok (Some v) ->
  0 <= v < 2 ^ 32.
Proof.
  unfold rx_well_formed. revert now.
  induction evs as [|ev evs IH]; intros now Hok Hres.
  - discriminate Hres.
  - cbn [forallb] in Hok. apply andb_prop in Hok. destruct Hok as [Hev Hok].
    cbn [sdo_poll] in Hres. destruct (now <? end_time); [|discriminate Hres].
    cbv zeta in Hres. destruct (rx_outcome ev) as [g| |].
    + destruct (id g =? cob_id - 0x80).
      * cbn in Hres. injection Hres as <-. apply payload_range, Hev.
      * apply (IH _ Hok Hres).
    + apply (IH _ Hok Hres).
    + discriminate Hres.
Qed.

(** The value [sdo_read_access] returns is the one its loop found. *)
Lemma sdo_read_access_value (node_id index subindex timeout_ms v : Z)
    (w w' : World) :
  sdo_read_access node_id index subindex timeout_ms w = (w', Ok (Some v)) ->
  p_result (sdo_poll (rx w) (clock w) (clock w + timeout_ms)
                     (0x600 + node_id)) = Ok (Some v).
Proof.
  unfold sdo_read_access. destruct (Frame_new _ _ _) as [frame|e];
    [|discriminate].
  unfold channel_write. cbn [rx clock].
  destruct (negb (hd false (tx_fail w))).
  - destruct (p_result _) as [[value|]|e] eqn:E.
    + intros H. injection H as _ <-. reflexivity.
    + unfold bind, print, ret. cbn. discriminate.
    + discriminate.
  - unfold except_canlib_CanlibException, raise. discriminate.
Qed.

(** X7: every value [sdo_read_access] returns lies in [0, 2^32): the four
    payload bytes are decoded as an unsigned integer, so a negative object
    value is never reported as negative.  (Received frames hold at most
    eight bytes, each in 0..255.) *)
Theorem sdo_read_access_range (node_id index subindex timeout_ms v : Z)
    (w w' : World) :
  rx_well_formed (rx w) = true ->
  sdo_read_access node_id index subindex timeout_ms w = (w', Ok (Some v)) ->
  0 <= v < 2 ^ 32.
Proof.
  intros Hok Hread.
  apply (sdo_poll_range _ _ _ _ _ Hok (sdo_read_access_value _ _ _ _ _ _ _ Hread)).
Qed.

Lemma sdo_read_access_range_witness : 0 <= 0x40 < 2 ^ 32.
Proof.
  apply (sdo_read_access_range 127 0x6041 0x00 1000 0x40 ordinary_drive
           (fst (sdo_read_access 127 0x6041 0x00 1000 ordinary_drive)));
    reflexivity.
Defined.

(** ** Motion controller: when the ramps and the mode are written *)

(** X8: [move_motor_in_profile_velocity] leaves the ramps alone exactly when
    both reads returned the requested values.  When either read differs or
    returned [None], it runs [disable_drive] first and then writes both
    0x6083 and 0x6084, in this order, also the one that did not differ;
    it does not enable the drive again at this point.  (The channel accepts
    the two writes.) *)
Theorem move_ramps_rewrites_both (node_id accel decel timeout_ms : Z)
    (w w1 w2 : World) (current_accel current_decel : option Z) :
  sdo_read_access node_id 0x6083 0x00 timeout_ms w = (w1, Ok current_accel) ->
  sdo_read_access node_id 0x6084 0x00 timeout_ms w1 = (w2, Ok current_decel) ->
  (current_accel = Some accel -> current_decel = Some decel ->
   move_ramps node_id accel decel timeout_ms w = (w2, Ok tt)) /\
  (current_accel <> Some accel \/ current_decel <> Some decel ->
   forall wd, disable_drive node_id timeout_ms w2 = (wd, Ok tt) ->
   hd false (tx_fail wd) = false ->
   hd false (tl (tx_fail wd)) = false ->
   exists w',
     move_ramps node_id accel decel timeout_ms w = (w', Ok tt) /\
     frames w' = frames wd ++ [write_request node_id 0x6083 0x00 accel;
                               write_request node_id 0x6084 0x00 decel]).
Proof.
  intros H1 H2. split.
  - intros -> ->. unfold move_ramps. step H1. step H2.
    unfold py_ne. rewrite !Z.eqb_refl. reflexivity.
  - intros Hdiff wd Hdis Htx1 Htx2. unfold move_ramps. step H1. step H2.
    assert (Hne : py_ne current_accel accel || py_ne current_decel decel
                  = true).
    { unfold py_ne. destruct current_accel as [a|], current_decel as [b|];
        try reflexivity;
        try (rewrite orb_true_r; reflexivity).
      destruct (a =? accel) eqn:Ea, (b =? decel) eqn:Eb; try reflexivity.
      apply Z.eqb_eq in Ea, Eb. subst. destruct Hdiff as [H|H]; congruence. }
    rewrite Hne. unfold when. step Hdis. step_write Htx1.
    rewrite sdo_write_access_accepted by (lia || exact Htx2).
    eexists. split; [reflexivity|].
    unfold frames. cbn [tx_log]. rewrite !map_app, <- app_assoc. reflexivity.
Qed.

Lemma move_ramps_rewrites_both_witness :
  exists w',
    move_ramps 127 2000 1000 1000 configured_drive = (w', Ok tt) /\
    sent_by (move_ramps 127 2000 1000 1000) configured_drive
    = [read_request 127 0x6083 0x00; read_request 127 0x6084 0x00;
       read_request 127 0x6041 0x00; write_request 127 0x6040 0x00 0x00;
       read_request 127 0x6041 0x00;
       write_request 127 0x6083 0x00 2000; write_request 127 0x6084 0x00 1000].
Proof.
  assert (H1 : sdo_read_access 127 0x6083 0x00 1000 configured_drive
               = (fst (sdo_read_access 127 0x6083 0x00 1000 configured_drive),
                  Ok (Some 1000))) by (vm_compute; reflexivity).
  assert (H2 : sdo_read_access 127 0x6084 0x00 1000
                 (fst (sdo_read_access 127 0x6083 0x00 1000 configured_drive))
               = (fst (sdo_read_access 127 0x6084 0x00 1000
                    (fst (sdo_read_access 127 0x6083 0x00 1000
                            configured_drive))),
                  Ok (Some 1000))) by (vm_compute; reflexivity).
  destruct (move_ramps_rewrites_both 127 2000 1000 1000 _ _ _ _ _ H1 H2)
    as [_ Hdiff].
  assert (Hne : Some 1000 <> Some 2000 \/ Some 1000 <> Some 1000)
    by (left; discriminate).
  destruct (Hdiff Hne
              (fst (disable_drive 127 1000
                 (fst (sdo_read_access 127 0x6084 0x00 1000
                    (fst (sdo_read_access 127 0x6083 0x00 1000
                            configured_drive)))))))
    as [w' [E _]]; [vm_compute; reflexivity..|].
  exists w'. split; [exact E|vm_compute; reflexivity].
Defined.

(** X9: a ramp outside [0, 2^32), a negative one for instance, never
    compares equal to what is read back: every call whose two reads return
    disables the drive and writes both ramps again. *)
Theorem move_ramps_out_of_range_always_rewrites
    (node_id accel decel timeout_ms : Z) (w w1 w2 : World)
    (current_accel current_decel : option Z) :
  rx_well_formed (rx w) = true ->
  accel < 0 \/ 2 ^ 32 <= accel ->
  sdo_read_access node_id 0x6083 0x00 timeout_ms w = (w1, Ok current_accel) ->
  sdo_read_access node_id 0x6084 0x00 timeout_ms w1 = (w2, Ok current_decel) ->
  move_ramps node_id accel decel timeout_ms w
  = (disable_drive node_id timeout_ms ;;
     sdo_write_access node_id 0x6083 0x00 accel timeout_ms ;;
     sdo_write_access node_id 0x6084 0x00 decel timeout_ms) w2.
Proof.
  intros Hok Hrange E1 E2.
  unfold move_ramps. step E1. step E2.
  assert (Hne : py_ne current_accel accel = true).
  { destruct current_accel as [a|]; [|reflexivity]. cbn [py_ne].
    pose proof (sdo_poll_range _ _ _ _ _ Hok
                  (sdo_read_access_value _ _ _ _ _ _ _ E1)) as Ha.
    apply negb_true_iff, Z.eqb_neq. lia. }
  rewrite Hne. reflexivity.
Qed.

Lemma move_ramps_out_of_range_always_rewrites_witness :
  exists w2,
    move_ramps 127 (-1000) 1000 1000 configured_drive
    = (disable_drive 127 1000 ;;
       sdo_write_access 127 0x6083 0x00 (-1000) 1000 ;;
       sdo_write_access 127 0x6084 0x00 1000 1000) w2.
Proof.
  eexists.
  eapply (move_ramps_out_of_range_always_rewrites 127 (-1000) 1000 1000
            configured_drive);
    [reflexivity|left; lia|vm_compute; reflexivity|vm_compute; reflexivity].
Defined.

(** X10: the mode is written only when the drive does not display mode 3.
    When the read of 0x6061 returns 3 nothing but that read is sent.
    Otherwise, also when the read returns [None], the drive is disabled
    first, then 3 is written to 0x6060, and only then [enable_drive] runs
    from there.  (The channel accepts the write of the mode.) *)
Theorem move_mode_disables_writes_enables (node_id timeout_ms : Z)
    (w w1 : World) (mode_of_operation : option Z) :
  sdo_read_access node_id 0x6061 0x00 timeout_ms w
    = (w1, Ok mode_of_operation) ->
  (mode_of_operation = Some 3 ->
   move_mode node_id timeout_ms w = (w1, Ok tt)) /\
  (mode_of_operation <> Some 3 ->
   forall wd, disable_drive node_id timeout_ms w1 = (wd, Ok tt) ->
   hd false (tx_fail wd) = false ->
   exists ws,
     set_cia402_mode_of_operation node_id 3 timeout_ms wd = (ws, Ok tt) /\
     frames ws = frames wd ++ [write_request node_id 0x6060 0x00 3] /\
     move_mode node_id timeout_ms w = enable_drive node_id timeout_ms ws).
Proof.
  intros Hread. split.
  - intros ->. unfold move_mode. step Hread. reflexivity.
  - intros Hne wd Hdis Htx.
    assert (Hmode : py_ne mode_of_operation 3 = true).
    { destruct mode_of_operation as [m|]; [|reflexivity]. cbn [py_ne].
      apply negb_true_iff, Z.eqb_neq. congruence. }
    assert (Hset : exists ws,
              set_cia402_mode_of_operation node_id 3 timeout_ms wd
                = (ws, Ok tt) /\
              frames ws = frames wd ++ [write_request node_id 0x6060 0x00 3]).
    { unfold set_cia402_mode_of_operation. step_print.
      rewrite sdo_write_access_accepted by (lia || exact Htx).
      eexists. split; [reflexivity|].
      unfold frames. cbn [tx_log]. rewrite map_app. reflexivity. }
    destruct Hset as [ws [Eset Fset]].
    exists ws. split; [exact Eset|]. split; [exact Fset|].
    unfold move_mode. step Hread. rewrite Hmode. unfold when.
    step Hdis. step Eset. reflexivity.
Qed.

Lemma move_mode_disables_writes_enables_witness :
  exists ws,
    move_mode 127 1000 drive_in_mode_1 = enable_drive 127 1000 ws /\
    sent_by (move_mode 127 1000) drive_in_mode_1
    = [read_request 127 0x6061 0x00;
       read_request 127 0x6041 0x00; write_request 127 0x6040 0x00 0x00;
       read_request 127 0x6041 0x00;
       write_request 127 0x6060 0x00 3;
       read_request 127 0x6041 0x00] ++ enable_sequence 127.
Proof.
  assert (H1 : sdo_read_access 127 0x6061 0x00 1000 drive_in_mode_1
               = (fst (sdo_read_access 127 0x6061 0x00 1000 drive_in_mode_1),
                  Ok (Some 1))) by (vm_compute; reflexivity).
  destruct (move_mode_disables_writes_enables 127 1000 _ _ _ H1)
    as [_ Hchange].
  assert (Hne : Some 1 <> Some 3) by discriminate.
  destruct (Hchange Hne
              (fst (disable_drive 127 1000
                 (fst (sdo_read_access 127 0x6061 0x00 1000
                         drive_in_mode_1)))))
    as [ws [_ [_ E]]]; [vm_compute; reflexivity..|].
  exists ws. split; [exact E|vm_compute; reflexivity].
Defined.

(** ** Drive state machine: the ordinary paths and the outcome *)

(** X11: when the first statusword read returns [None] (no answer in
    time), or a statusword that shows neither fault nor fault reaction
    active, and the transport does not fail afterwards, [enable_drive]
    returns normally after sending exactly the four commands 0x00, 0x06,
    0x07, 0x0F, each followed by a statusword read: a drive that does not
    answer is commanded all the same. *)
Theorem enable_drive_without_fault (node_id timeout_ms : Z) (w w1 : World)
    (read_data : option Z) :
  sdo_read_access node_id 0x6041 0x00 timeout_ms w = (w1, Ok read_data) ->
  no_fault_seen read_data = true ->
  transport_ok w1 = true ->
  exists w',
    enable_drive node_id timeout_ms w = (w', Ok tt) /\
    frames w' = frames w1 ++ enable_sequence node_id.
Proof.
  intros Hread Hseen Hok. unfold enable_drive. cbv zeta. step Hread.
  destruct read_data as [v|].
  - cbn [no_fault_seen] in Hseen. apply andb_prop in Hseen.
    destruct Hseen as [H1 H2]. apply negb_true_iff in H1, H2.
    change 0x0000004F with 0x4F. change 0x0000000F with 0x0F.
    change 0x00000008 with 0x08. rewrite H1, H2.
    erewrite bind_ok; [|reflexivity].
    destruct (enable_commands node_id timeout_ms w1 Hok) as [w' [E [F _]]].
    exists w'. split; assumption.
  - erewrite bind_ok; [|reflexivity].
    destruct (enable_commands node_id timeout_ms w1 Hok) as [w' [E [F _]]].
    exists w'. split; assumption.
Qed.

Lemma enable_drive_without_fault_witness :
  exists w',
    enable_drive 127 1000 (world_with []) = (w', Ok tt) /\
    frames w' = [read_request 127 0x6041 0x00] ++ enable_sequence 127.
Proof.
  apply (enable_drive_without_fault 127 1000 (world_with [])
           (fst (sdo_read_access 127 0x6041 0x00 1000 (world_with [])))
           None); [vm_compute; reflexivity|reflexivity|reflexivity].
Defined.

(** X13: when the first statusword read returns [None] or a statusword
    without fault, and the channel accepts the command, [disable_drive]
    writes 0x00 to the controlword, waits, reads the statusword once more
    and returns normally one second later.  "Wrong status word value!" is
    printed only when that last read returned a statusword that is not 0x40
    under the mask 0x4F; when it returned [None] nothing is said, and
    "Drive disabled successfully." closes the output in either case. *)
Theorem disable_drive_without_fault (node_id timeout_ms : Z)
    (w w1 w3 : World) (read_data last_read : option Z) :
  sdo_read_access node_id 0x6041 0x00 timeout_ms w = (w1, Ok read_data) ->
  no_fault_seen read_data = true ->
  hd false (tx_fail w1) = false ->
  sdo_read_access node_id 0x6041 0x00 timeout_ms
    (fst (disable_voltage node_id timeout_ms w1)) = (w3, Ok last_read) ->
  exists w',
    disable_drive node_id timeout_ms w = (w', Ok tt) /\
    frames w' = frames w1 ++ [write_request node_id 0x6040 0x00 0x00;
                              read_request node_id 0x6041 0x00] /\
    out w' = out w3
             ++ (if wrong_status last_read then [WrongStatusWord] else [])
             ++ [DriveDisabledSuccessfully] /\
    clock w' = clock w3 + 1000.
Proof.
  intros Hread Hok Htx Hlast.
  assert (Hdv : disable_voltage node_id timeout_ms w1
    = (mkWorld (clock w1 + 1000 * 1) (rx w1) (tl (tx_fail w1))
         (tx_log w1 ++ [mkTx (write_request node_id 0x6040 0x00 0x00) true])
         ((out w1 ++ [IssuingDisableVoltage])
          ++ [SentSdoWrite 0x6040 0x00 0x00]),
       Ok tt)).
  { unfold disable_voltage. step_print. step_write Htx.
    rewrite sleep_eq. reflexivity. }
  destruct (sdo_read_access_frames node_id 0x6041 timeout_ms
              (fst (disable_voltage node_id timeout_ms w1)))
    as [w3' [r [E [F _]]]].
  rewrite Hlast in E. injection E as <- _.
  rewrite Hdv in Hlast, F. cbn [fst] in Hlast, F.
  assert (Hclear :
    match read_data with
    | Some v =>
        if Z.land v 0x0000004F =? 0x0000000F then
          print DisableNotPossibleFaultReactionActive
        else if Z.land v 0x0000004F =? 0x00000008 then
          print IssuingFaultReset ;;
          sdo_write_access node_id 0x6040 0x00 0x80 timeout_ms ;;
          sleep 1 ;;
          read_data <- sdo_read_access node_id 0x6041 0x00 timeout_ms ;;
          masked <- py_and read_data 0x0000004F ;;
          when (negb (masked =? 0x00000040)) (print PendingFaultNotCleared)
        else ret tt
    | None => ret tt
    end w1 = (w1, Ok tt)).
  { destruct read_data as [v|]; [|reflexivity].
    cbn [no_fault_seen] in Hok. apply andb_prop in Hok.
    destruct Hok as [H1 H2]. apply negb_true_iff in H1, H2.
    change 0x0000004F with 0x4F. change 0x0000000F with 0x0F.
    change 0x00000008 with 0x08. rewrite H1, H2. reflexivity. }
  unfold disable_drive. cbv zeta. step Hread. step Hclear.
  step_print. step_write Htx. step_sleep. step Hlast.
  fold (wrong_status last_read).
  unfold frames in F. cbn [tx_log] in F. rewrite map_app in F.
  fold (frames w1) in F. cbn [map tx_frame] in F.
  destruct (wrong_status last_read); unfold when.
  - step_print. step_sleep. rewrite print_eq. eexists.
    split; [reflexivity|]. cbn [out clock].
    split; [|split; [rewrite <- !app_assoc; reflexivity|lia]].
    unfold frames at 1. cbn [tx_log].
    rewrite F, <- app_assoc. reflexivity.
  - erewrite bind_ok; [|reflexivity]. step_sleep. rewrite print_eq. eexists.
    split; [reflexivity|]. cbn [out clock app].
    split; [|split; [reflexivity|lia]].
    unfold frames at 1. cbn [tx_log].
    rewrite F, <- app_assoc. reflexivity.
Qed.

Lemma disable_drive_without_fault_witness :
  exists w',
    disable_drive 127 1000 (world_with []) = (w', Ok tt) /\
    out w' = [SentSdoRead 0x6041 0x00; TimeoutWaitingForSdoResponse;
              IssuingDisableVoltage; SentSdoWrite 0x6040 0x00 0x00;
              SentSdoRead 0x6041 0x00; TimeoutWaitingForSdoResponse;
              DriveDisabledSuccessfully].
Proof.
  destruct (disable_drive_without_fault 127 1000 (world_with [])
              (fst (sdo_read_access 127 0x6041 0x00 1000 (world_with [])))
              (fst (sdo_read_access 127 0x6041 0x00 1000
                 (fst (disable_voltage 127 1000
                    (fst (sdo_read_access 127 0x6041 0x00 1000
                            (world_with [])))))))
              None None)
    as [w' [E [_ [Hout _]]]];
    [vm_compute; reflexivity|reflexivity|reflexivity
    |vm_compute; reflexivity|].
  exists w'. split; [exact E|]. rewrite Hout. vm_compute. reflexivity.
Defined.

Section LastLine.

Variable msg : Msg.

Lemma ends_with_bind {A B} (m : M A) (k : A -> M B) :
  (forall a, ends_with msg (k a)) -> ends_with msg (bind m k).
Proof.
  intros Hk w w' b. unfold bind.
  destruct (m w) as [w1 [a|e]]; [|discriminate].
  apply (Hk a).
Qed.

Lemma ends_with_print : ends_with msg (print msg).
Proof.
  intros w w' a H. rewrite print_eq in H. injection H as <- _.
  exists (out w). reflexivity.
Qed.

End LastLine.

Lemma enable_drive_ends_with_success (node_id timeout_ms : Z) :
  ends_with DriveEnabledSuccessfully (enable_drive node_id timeout_ms).
Proof.
  unfold enable_drive. cbv zeta.
  apply ends_with_bind. intros read_data.
  apply ends_with_bind. intros _.
  apply ends_with_bind. intros _.
  apply ends_with_print.
Qed.

(** *** What can go wrong on the way *)

Lemma fails_with_transport_ret {A} (a : A) : fails_with_transport (ret a).
Proof.
  intros w w' r H. injection H as <- <-.
  split; [tauto|]. intros e He. discriminate He.
Qed.

Lemma fails_with_transport_print (msg : Msg) :
  fails_with_transport (print msg).
Proof.
  intros w w' r H. rewrite print_eq in H. injection H as <- <-.
  split; [intros Hok; exact Hok|]. intros e He. discriminate He.
Qed.

Lemma fails_with_transport_sleep (seconds : Z) :
  fails_with_transport (sleep seconds).
Proof.
  intros w w' r H. rewrite sleep_eq in H. injection H as <- <-.
  split; [intros Hok; exact Hok|]. intros e He. discriminate He.
Qed.

Lemma fails_with_transport_read (node_id index timeout_ms : Z) :
  fails_with_transport (sdo_read_access node_id index 0x00 timeout_ms).
Proof.
  intros w w' r H. split.
  - intros Hok.
    pose proof (sdo_read_access_keeps_ok node_id index timeout_ms w Hok) as K.
    rewrite H in K. exact K.
  - intros e ->. apply (sdo_read_access_raises _ _ _ _ _ _ H).
Qed.

Lemma fails_with_transport_write (node_id index value timeout_ms : Z) :
  fails_with_transport (sdo_write_access node_id index 0x00 value timeout_ms).
Proof.
  intros w w' r H. split.
  - intros Hok.
    destruct (sdo_write_access_ok node_id index value timeout_ms w Hok)
      as [w1 [E [_ K]]].
    rewrite E in H. injection H as <- _. exact K.
  - intros e ->. apply (sdo_write_access_raises _ _ _ _ _ _ _ H).
Qed.

Lemma fails_with_transport_bind {A B} (m : M A) (k : A -> M B) :
  fails_with_transport m -> (forall a, fails_with_transport (k a)) ->
  fails_with_transport (bind m k).
Proof.
  intros Hm Hk w w' r H. apply bind_inv in H.
  destruct H as [[w1 [a [E1 E2]]]|[e [E1 ->]]].
  - destruct (Hm w w1 (Ok a) E1) as [K1 _].
    destruct (Hk a w1 w' r E2) as [K2 R2].
    split; [intros Hok; apply K2, K1, Hok|].
    intros e He. destruct (R2 e He) as [-> Hbad]. split; [reflexivity|].
    destruct (transport_ok w); [|reflexivity].
    rewrite K1 in Hbad by reflexivity. discriminate Hbad.
  - destruct (Hm w w' (Raise e) E1) as [K1 R1].
    split; [exact K1|]. intros e' He. injection He as <-.
    apply R1. reflexivity.
Qed.

Lemma fails_with_transport_when (c : bool) (body : M unit) :
  fails_with_transport body -> fails_with_transport (when c body).
Proof. intros H. destruct c; [exact H|apply fails_with_transport_ret]. Qed.

Lemma fails_with_transport_for_each {A} (l : list A) (body : A -> M unit) :
  (forall x, fails_with_transport (body x)) ->
  fails_with_transport (for_each l body).
Proof.
  intros H. induction l as [|x l IH]; cbn [for_each].
  - apply fails_with_transport_ret.
  - apply fails_with_transport_bind; [apply H|intros _; exact IH].
Qed.

(** Lines 95-108. *)
Lemma fails_with_transport_enable_commands (node_id timeout_ms : Z) :
  fails_with_transport
    (for_each
       [(0x00, "disable voltage command"%string);
        (0x06, "shutdown command"%string);
        (0x07, "switch on command"%string);
        (0x0F, "switch on and enable command"%string)]
       (fun '(command, description) =>
          print (Issuing description) ;;
          sdo_write_access node_id 0x6040 0x00 command timeout_ms ;;
          sleep 1 ;;
          read_data <- sdo_read_access node_id 0x6041 0x00 timeout_ms ;;
          ret tt) ;;
     print DriveEnabledSuccessfully).
Proof.
  apply fails_with_transport_bind;
    [|intros _; apply fails_with_transport_print].
  apply fails_with_transport_for_each. intros [command description].
  apply fails_with_transport_bind;
    [apply fails_with_transport_print|intros _].
  apply fails_with_transport_bind;
    [apply fails_with_transport_write|intros _].
  apply fails_with_transport_bind;
    [apply fails_with_transport_sleep|intros _].
  apply fails_with_transport_bind;
    [apply fails_with_transport_read|intros _; apply fails_with_transport_ret].
Qed.

(** The fault branch of lines 86-92 and 127-133 when the reset is written:
    it goes on from the world the reset left. *)
Lemma fault_branch_eq (node_id timeout_ms : Z) (w1 : World) :
  hd false (tx_fail w1) = false ->
  (print IssuingFaultReset ;;
   sdo_write_access node_id 0x6040 0x00 0x80 timeout_ms ;;
   sleep 1 ;;
   read_data <- sdo_read_access node_id 0x6041 0x00 timeout_ms ;;
   masked <- py_and read_data 0x0000004F ;;
   when (negb (masked =? 0x00000040)) (print PendingFaultNotCleared)) w1
  = (read_data <- sdo_read_access node_id 0x6041 0x00 timeout_ms ;;
     masked <- py_and read_data 0x0000004F ;;
     when (negb (masked =? 0x00000040)) (print PendingFaultNotCleared))
    (fst (reset_fault node_id timeout_ms w1)).
Proof.
  intros Htx. rewrite (reset_fault_eq _ _ _ Htx). cbn [fst].
  step_print. step_write Htx. step_sleep. reflexivity.
Qed.

(** Lines 81-92 and 122-133: the check of the first statusword keeps a
    transport that does not fail; it raises [AttributeError] only when the
    transport fails, and [TypeError] only when a fault was seen, the reset
    was written and the read after it returned [None]. *)
Lemma clear_fault_outcome (node_id timeout_ms : Z) (read_data : option Z)
    (not_possible : Msg) (w1 w2 : World) (r : result unit) :
  match read_data with
  | Some v =>
      if Z.land v 0x0000004F =? 0x0000000F then print not_possible
      else if Z.land v 0x0000004F =? 0x00000008 then
        print IssuingFaultReset ;;
        sdo_write_access node_id 0x6040 0x00 0x80 timeout_ms ;;
        sleep 1 ;;
        read_data <- sdo_read_access node_id 0x6041 0x00 timeout_ms ;;
        masked <- py_and read_data 0x0000004F ;;
        when (negb (masked =? 0x00000040)) (print PendingFaultNotCleared)
      else ret tt
  | None => ret tt
  end w1 = (w2, r) ->
  (transport_ok w1 = true -> transport_ok w2 = true) /\
  (forall e, r = Raise e ->
     (e = AttributeError /\ transport_ok w1 = false) \/
     (e = TypeError /\
      exists v, read_data = Some v /\ Z.land v 0x4F = 0x08 /\
        hd false (tx_fail w1) = false /\
        snd (sdo_read_access node_id 0x6041 0x00 timeout_ms
               (fst (reset_fault node_id timeout_ms w1))) = Ok None)).
Proof.
  assert (Heasy : forall m : M unit, fails_with_transport m ->
            m w1 = (w2, r) ->
            (transport_ok w1 = true -> transport_ok w2 = true) /\
            (forall e, r = Raise e ->
               (e = AttributeError /\ transport_ok w1 = false) \/
               (e = TypeError /\
                exists v, read_data = Some v /\ Z.land v 0x4F = 0x08 /\
                  hd false (tx_fail w1) = false /\
                  snd (sdo_read_access node_id 0x6041 0x00 timeout_ms
                         (fst (reset_fault node_id timeout_ms w1)))
                  = Ok None))).
  { intros m Hm E. destruct (Hm w1 w2 r E) as [K R].
    split; [exact K|]. intros e He. left. apply (R e He). }
  destruct read_data as [v|];
    [|apply Heasy, fails_with_transport_ret].
  destruct (Z.land v 0x0000004F =? 0x0000000F);
    [apply Heasy, fails_with_transport_print|].
  destruct (Z.land v 0x0000004F =? 0x00000008) eqn:Hfault;
    [|apply Heasy, fails_with_transport_ret].
  apply Z.eqb_eq in Hfault. clear Heasy.
  destruct (hd false (tx_fail w1)) eqn:Htx.
  - (* the reset is refused *)
    intros H. erewrite bind_ok in H; [|apply print_eq]. cbv beta in H.
    erewrite bind_raise in H.
    2:{ rewrite sdo_write_access_eq by lia. cbn [tx_fail]. rewrite Htx.
        reflexivity. }
    injection H as <- <-.
    assert (Hbad : transport_ok w1 = false).
    { destruct (transport_ok w1) eqn:Hok; [|reflexivity].
      rewrite (transport_ok_accepts w1 Hok) in Htx. discriminate Htx. }
    split; [rewrite Hbad; discriminate|].
    intros e He. injection He as <-. left. split; [reflexivity|exact Hbad].
  - rewrite (fault_branch_eq _ _ _ Htx).
    assert (Hkeep : transport_ok w1 = true ->
              transport_ok (fst (reset_fault node_id timeout_ms w1)) = true).
    { intros Hok. rewrite (reset_fault_eq _ _ _ Htx). cbn [fst].
      apply (transport_ok_next w1 _ []);
        [reflexivity|reflexivity|exact Hok]. }
    intros H. apply bind_inv in H.
    destruct H as [[w3 [reread [E1 E2]]]|[e [E1 ->]]].
    + destruct (fails_with_transport_read node_id 0x6041 timeout_ms
                  _ _ _ E1) as [K3 _].
      destruct reread as [v'|].
      * cbn [py_and] in E2. erewrite bind_ok in E2; [|reflexivity].
        cbv beta in E2.
        destruct (fails_with_transport_when
                    (negb (Z.land v' 0x0000004F =? 0x00000040))
                    (print PendingFaultNotCleared)
                    (fails_with_transport_print _) w3 w2 r E2) as [K4 R4].
        split; [intros Hok; apply K4, K3, Hkeep, Hok|].
        intros e He. left. destruct (R4 e He) as [-> Hbad].
        split; [reflexivity|].
        destruct (transport_ok w1); [|reflexivity].
        rewrite K3 in Hbad by (apply Hkeep; reflexivity). discriminate Hbad.
      * cbn in E2. injection E2 as <- <-.
        split; [intros Hok; apply K3, Hkeep, Hok|].
        intros e He. injection He as <-. right. split; [reflexivity|].
        exists v. split; [reflexivity|]. split; [exact Hfault|].
        split; [reflexivity|]. rewrite E1. reflexivity.
    + destruct (fails_with_transport_read node_id 0x6041 timeout_ms
                  _ _ _ E1) as [K3 R3].
      split; [intros Hok; apply K3, Hkeep, Hok|].
      intros e' He. injection He as <-. left.
      destruct (R3 e eq_refl) as [-> Hbad]. split; [reflexivity|].
      destruct (transport_ok w1); [|reflexivity].
      rewrite Hkeep in Hbad by reflexivity. discriminate Hbad.
Qed.

(** X12: [enable_drive] has three outcomes.  It returns normally, and then
    its last printed line is "Drive enabled successfully." whatever
    statuswords it read or failed to read; or it raises [TypeError], which
    happens only when the first statusword showed a fault, the fault reset
    was written and the read after it returned [None]; or it raises
    [AttributeError], which happens only when a [channel.write] is refused
    or a [channel.read] fails. *)
Theorem enable_drive_outcome (node_id timeout_ms : Z) (w w' : World)
    (r : result unit) :
  enable_drive node_id timeout_ms w = (w', r) ->
  (r = Ok tt /\ exists lines, out w' = lines ++ [DriveEnabledSuccessfully]) \/
  (r = Raise TypeError /\
   exists w1 v,
     sdo_read_access node_id 0x6041 0x00 timeout_ms w = (w1, Ok (Some v)) /\
     Z.land v 0x4F = 0x08 /\
     hd false (tx_fail w1) = false /\
     snd (sdo_read_access node_id 0x6041 0x00 timeout_ms
            (fst (reset_fault node_id timeout_ms w1))) = Ok None) \/
  (r = Raise AttributeError /\ transport_ok w = false).
Proof.
  intros Hrun. destruct r as [[]|e].
  - left. split; [reflexivity|].
    apply (enable_drive_ends_with_success node_id timeout_ms w w' tt Hrun).
  - right. unfold enable_drive in Hrun. cbv zeta in Hrun.
    apply bind_inv in Hrun.
    destruct Hrun as [[w1 [read_data [E1 E2]]]|[e1 [E1 He]]].
    + destruct (fails_with_transport_read node_id 0x6041 timeout_ms
                  _ _ _ E1) as [K1 _].
      assert (Hback : forall w2, transport_ok w2 = false ->
                (transport_ok w1 = true -> transport_ok w2 = true) ->
                transport_ok w = false).
      { intros w2 Hbad K. destruct (transport_ok w); [|reflexivity].
        rewrite K in Hbad by (apply K1; reflexivity). discriminate Hbad. }
      apply bind_inv in E2.
      destruct E2 as [[w2 [u [E2 E3]]]|[e2 [E2 He]]].
      * destruct (clear_fault_outcome _ _ _ _ _ _ _ E2) as [K2 _].
        destruct (fails_with_transport_enable_commands node_id timeout_ms
                    _ _ _ E3) as [_ R3].
        destruct (R3 e eq_refl) as [-> Hbad].
        right. split; [reflexivity|]. apply (Hback w2 Hbad K2).
      * injection He as <-.
        destruct (clear_fault_outcome _ _ _ _ _ _ _ E2) as [_ R2].
        destruct (R2 e eq_refl) as [[-> Hbad]|[-> [v [-> [Hf [Htx Hnone]]]]]].
        -- right. split; [reflexivity|].
           apply (Hback w1 Hbad). tauto.
        -- left. split; [reflexivity|]. exists w1, v. repeat split; assumption.
    + injection He as <-.
      destruct (fails_with_transport_read node_id 0x6041 timeout_ms
                  _ _ _ E1) as [_ R1].
      destruct (R1 e eq_refl) as [-> Hbad].
      right. split; [reflexivity|exact Hbad].
Qed.

Lemma enable_drive_outcome_witness :
  (exists lines,
     out (fst (enable_drive 127 1000 (world_with [])))
     = lines ++ [DriveEnabledSuccessfully]) /\
  snd (enable_drive 127 1000 faulted_then_silent) = Raise TypeError /\
  snd (enable_drive 127 1000 faulted_and_refusing) = Raise AttributeError.
Proof.
  split; [|split].
  - destruct (enable_drive_outcome 127 1000 (world_with [])
                (fst (enable_drive 127 1000 (world_with []))) (Ok tt))
      as [[_ H]|[[H _]|[H _]]];
      [vm_compute; reflexivity|exact H|discriminate H|discriminate H].
  - destruct (enable_drive_outcome 127 1000 faulted_then_silent
                (fst (enable_drive 127 1000 faulted_then_silent))
                (snd (enable_drive 127 1000 faulted_then_silent)))
      as [[H _]|[[H _]|[_ H]]];
      [vm_compute; reflexivity| | |];
      [vm_compute in H; discriminate H|exact H|vm_compute in H; discriminate H].
  - destruct (enable_drive_outcome 127 1000 faulted_and_refusing
                (fst (enable_drive 127 1000 faulted_and_refusing))
                (snd (enable_drive 127 1000 faulted_and_refusing)))
      as [[H _]|[[H _]|[H _]]];
      [vm_compute; reflexivity| | |];
      [vm_compute in H; discriminate H|vm_compute in H; discriminate H
      |exact H].
Defined.

(** ** How long the drive functions block *)

Section Duration.

Lemma lasts_weaken {A} (ms ms' : Z) (m : M A) :
  lasts ms m -> ms' <= ms -> lasts ms' m.
Proof. intros H Hle w w' a E. specialize (H w w' a E). lia. Qed.

Lemma lasts_bind {A B} (ms1 ms2 : Z) (m : M A) (k : A -> M B) :
  lasts ms1 m -> (forall a, lasts ms2 (k a)) -> lasts (ms1 + ms2) (bind m k).
Proof.
  intros Hm Hk w w' b. unfold bind.
  destruct (m w) as [w1 [a|e]] eqn:E; [|discriminate].
  intros E'. specialize (Hm w w1 a E). specialize (Hk a w1 w' b E'). lia.
Qed.

Lemma lasts_ret {A} (a : A) : lasts 0 (ret a).
Proof. intros w w' a' E. injection E as <- _. lia. Qed.

Lemma lasts_print (msg : Msg) : lasts 0 (print msg).
Proof. intros w w' a E. rewrite print_eq in E. injection E as <- _. cbn. lia. Qed.

Lemma lasts_sleep (seconds : Z) : lasts (1000 * seconds) (sleep seconds).
Proof. intros w w' a E. rewrite sleep_eq in E. injection E as <- _. cbn. lia. Qed.

Lemma lasts_py_and (x : option Z) (mask : Z) : lasts 0 (py_and x mask).
Proof.
  destruct x as [v|]; [apply lasts_ret|].
  intros w w' a E. discriminate E.
Qed.

Lemma lasts_when (c : bool) (body : M unit) :
  lasts 0 body -> lasts 0 (when c body).
Proof. intros H. destruct c; [exact H|apply lasts_ret]. Qed.

Lemma lasts_write (node_id index value timeout_ms : Z) :
  lasts 0 (sdo_write_access node_id index 0x00 value timeout_ms).
Proof.
  intros w w' a E. rewrite sdo_write_access_eq in E by lia.
  injection E as <- _. cbn. lia.
Qed.

Lemma lasts_read (node_id index timeout_ms : Z) :
  lasts 0 (sdo_read_access node_id index 0x00 timeout_ms).
Proof.
  intros w w' a E. rewrite sdo_read_access_eq in E by lia.
  destruct (hd false (tx_fail w)).
  - injection E as <- _. cbn. lia.
  - cbv zeta in E.
    pose proof (sdo_poll_clock (rx w) (clock w) (clock w + timeout_ms)
                  (0x600 + node_id)) as H.
    set (p := sdo_poll _ _ _ _) in *. clearbody p.
    injection E as <- _. cbn [clock]. lia.
Qed.

Lemma lasts_for_each {A} (ms : Z) (l : list A) (body : A -> M unit) :
  (forall x, lasts ms (body x)) ->
  lasts (ms * Z.of_nat (List.length l)) (for_each l body).
Proof.
  intros H. induction l as [|x l IH]; cbn [for_each List.length].
  - rewrite Z.mul_0_r. apply lasts_ret.
  - eapply lasts_weaken; [apply lasts_bind; [apply H|intros _; exact IH]|].
    lia.
Qed.

Variables node_id timeout_ms : Z.

Lemma lasts_clear_fault (read_data : option Z) (not_possible : Msg) :
  lasts 0
    match read_data with
    | Some v =>
        if Z.land v 0x0000004F =? 0x0000000F then print not_possible
        else if Z.land v 0x0000004F =? 0x00000008 then
          print IssuingFaultReset ;;
          sdo_write_access node_id 0x6040 0x00 0x80 timeout_ms ;;
          sleep 1 ;;
          read_data <- sdo_read_access node_id 0x6041 0x00 timeout_ms ;;
          masked <- py_and read_data 0x0000004F ;;
          when (negb (masked =? 0x00000040)) (print PendingFaultNotCleared)
        else ret tt
    | None => ret tt
    end.
Proof.
  destruct read_data as [v|]; [|apply lasts_ret].
  destruct (Z.land v 0x0000004F =? 0x0000000F); [apply lasts_print|].
  destruct (Z.land v 0x0000004F =? 0x00000008); [|apply lasts_ret].
  eapply lasts_weaken.
  - apply lasts_bind; [apply lasts_print|intros _].
    apply lasts_bind; [apply lasts_write|intros _].
    apply lasts_bind; [apply lasts_sleep|intros _].
    apply lasts_bind; [apply lasts_read|intros r].
    apply lasts_bind; [apply lasts_py_and|intros masked].
    apply lasts_when, lasts_print.
  - lia.
Qed.

Lemma lasts_enable_drive : lasts 4000 (enable_drive node_id timeout_ms).
Proof.
  unfold enable_drive. cbv zeta. eapply lasts_weaken.
  - apply lasts_bind; [apply lasts_read|intros read_data].
    apply lasts_bind; [apply lasts_clear_fault|intros _].
    apply lasts_bind; [|intros _; apply lasts_print].
    apply lasts_for_each. intros [command description].
    apply lasts_bind; [apply lasts_print|intros _].
    apply lasts_bind; [apply lasts_write|intros _].
    apply lasts_bind; [apply lasts_sleep|intros _].
    apply lasts_bind; [apply lasts_read|intros _; apply lasts_ret].
  - cbn. lia.
Qed.

Lemma lasts_disable_drive : lasts 2000 (disable_drive node_id timeout_ms).
Proof.
  unfold disable_drive. cbv zeta. eapply lasts_weaken.
  - apply lasts_bind; [apply lasts_read|intros read_data].
    apply lasts_bind; [apply lasts_clear_fault|intros _].
    apply lasts_bind; [apply lasts_print|intros _].
    apply lasts_bind; [apply lasts_write|intros _].
    apply lasts_bind; [apply lasts_sleep|intros _].
    apply lasts_bind; [apply lasts_read|intros r].
    apply lasts_bind; [apply lasts_when, lasts_print|intros _].
    apply lasts_bind; [apply lasts_sleep|intros _].
    apply lasts_print.
  - lia.
Qed.

End Duration.

(** X14: the settle delays are unconditional: a call of [enable_drive] that
    returns normally has blocked its caller for at least 4 seconds, and a
    call of [disable_drive] for at least 2 seconds, however fast the drive
    answers. *)
Theorem drive_functions_block (node_id timeout_ms : Z) (w w' : World) :
  (enable_drive node_id timeout_ms w = (w', Ok tt) ->
   clock w + 4000 <= clock w') /\
  (disable_drive node_id timeout_ms w = (w', Ok tt) ->
   clock w + 2000 <= clock w').
Proof.
  split; intros E.
  - apply (lasts_enable_drive node_id timeout_ms w w' tt E).
  - apply (lasts_disable_drive node_id timeout_ms w w' tt E).
Qed.

Lemma drive_functions_block_witness :
  clock ordinary_drive + 4000
  <= clock (fst (enable_drive 127 1000 ordinary_drive)).
Proof.
  apply (drive_functions_block 127 1000 ordinary_drive
           (fst (enable_drive 127 1000 ordinary_drive))).
  vm_compute. reflexivity.
Defined.

(** ** Heartbeat monitor: the edges of the window *)

Lemma fetch_loop_expired (evs : list RxEvent) (now end_time count : Z) :
  end_time <= now ->
  fetch_loop evs now end_time count = mkFetch now evs [] count (Ok tt).
Proof.
  intros H. destruct evs as [|ev evs]; cbn [fetch_loop].
  - rewrite idle_until_expired by exact H. reflexivity.
  - replace (now <? end_time) with false by (symmetry; apply Z.ltb_ge; lia).
    reflexivity.
Qed.

Lemma fetch_loop_overshoot (evs : list RxEvent) (now end_time count : Z) :
  within_read_timeout evs = true ->
  now < end_time + 1000 ->
  f_clock (fetch_loop evs now end_time count) < end_time + 1000.
Proof.
  unfold within_read_timeout. revert now count.
  induction evs as [|ev evs IH]; intros now count Hok Hlt.
  - cbn. apply idle_until_overshoot. exact Hlt.
  - cbn [forallb] in Hok. apply andb_prop in Hok. destruct Hok as [Hev Hok].
    apply N.leb_le in Hev.
    cbn [fetch_loop]. destruct (now <? end_time) eqn:E; [|exact Hlt].
    apply Z.ltb_lt in E. cbv zeta.
    assert (Hnext : now + Z.of_N (rx_wait ev) < end_time + 1000) by lia.
    destruct (rx_outcome ev) as [frame| |];
      [destruct (id frame =? 0x700 + 127)| |];
      rewrite ?fetch_say_clock; try (apply IH; assumption).
    exact Hnext.
Qed.

Lemma heartbeat_lines_cons (ev : RxEvent) (evs : list RxEvent) :
  heartbeat_lines (ev :: evs) =
  (if has_id (0x700 + 127) ev then [ReceivedHeartbeat 127] else [])
  ++ heartbeat_lines evs.
Proof.
  unfold heartbeat_lines. cbn [filter].
  destruct (has_id (0x700 + 127) ev); reflexivity.
Qed.

(** Events that are no failures are read as long as the reads start inside
    the window; the heartbeats of node 127 among them are counted and
    announced. *)
Lemma fetch_loop_skips (pre rest : list RxEvent) (now end_time count : Z) :
  no_failure pre = true ->
  now + total_wait pre < end_time ->
  fetch_loop (pre ++ rest) now end_time count
  = let r := fetch_loop rest (now + total_wait pre) end_time
                        (count + heartbeats_of 127 pre) in
    mkFetch (f_clock r) (f_rx r) (heartbeat_lines pre ++ f_out r)
            (f_count r) (f_result r).
Proof.
  unfold no_failure. revert now count.
  induction pre as [|ev pre IH]; intros now count Hok Hlt; cbn [app].
  - cbv zeta. change (total_wait []) with 0.
    change (heartbeats_of 127 []) with 0.
    change (heartbeat_lines []) with (@nil Msg).
    rewrite !Z.add_0_r. cbn [app].
    destruct (fetch_loop rest now end_time count); reflexivity.
  - cbn [forallb] in Hok. apply andb_prop in Hok. destruct Hok as [Hev Hok].
    rewrite total_wait_cons in *.
    pose proof (total_wait_nonneg pre) as Hnn.
    rewrite heartbeats_of_cons, heartbeat_lines_cons.
    cbn [fetch_loop].
    replace (now <? end_time) with true by (symmetry; apply Z.ltb_lt; lia).
    cbv zeta.
    rewrite !Z.add_assoc.
    unfold has_id, is_failure in *.
    destruct (rx_outcome ev) as [frame| |]; [| |discriminate Hev].
    + destruct (id frame =? 0x700 + 127) eqn:Eid.
      * apply Z.eqb_eq in Eid. rewrite Eid.
        rewrite IH by (assumption || lia). cbv zeta.
        reflexivity.
      * rewrite IH by (assumption || lia). cbv zeta.
        rewrite Z.add_0_r. reflexivity.
    + rewrite IH by (assumption || lia). cbv zeta.
      rewrite Z.add_0_r. reflexivity.
Qed.

(** X15: with a duration that is not positive [fetch_telegrams] reads
    nothing: the count printed is 0, the receive queue and the clock are
    untouched, and nothing is sent. *)
Theorem fetch_telegrams_without_time (duration_seconds : Z) (w : World) :
  duration_seconds <= 0 ->
  fetch_telegrams duration_seconds w
  = (mkWorld (clock w) (rx w) (tx_fail w) (tx_log w)
       (out w ++ [FetchingCanMessages duration_seconds; TotalHeartbeats 0]),
     Ok tt).
Proof.
  intros H. unfold fetch_telegrams. cbv zeta.
  rewrite fetch_loop_expired by lia. rewrite print_eq.
  cbn [f_clock f_rx f_out f_count clock rx tx_fail tx_log out].
  rewrite <- app_assoc. reflexivity.
Qed.

Lemma fetch_telegrams_without_time_witness :
  rx (fst (fetch_telegrams 0 (world_with [heartbeat 127])))
  = [heartbeat 127].
Proof.
  rewrite (fetch_telegrams_without_time 0 (world_with [heartbeat 127]));
    [reflexivity|lia].
Defined.

(** X16: as long as no [channel.read] fails, [fetch_telegrams] observes its
    whole window: for a positive duration it returns normally, no earlier
    than [duration_seconds] after it began, whatever frames it receives,
    and less than 1000 ms after the end of the window when each read
    returns within its 1000 ms. *)
Theorem fetch_telegrams_window (duration_seconds : Z) (w : World) :
  0 < duration_seconds ->
  no_failure (rx w) = true ->
  within_read_timeout (rx w) = true ->
  let w' := fst (fetch_telegrams duration_seconds w) in
  snd (fetch_telegrams duration_seconds w) = Ok tt /\
  clock w + 1000 * duration_seconds <= clock w'
    < clock w + 1000 * duration_seconds + 1000.
Proof.
  intros Hd Hnf Hok. cbv zeta.
  destruct (fetch_loop_counts (rx w) (clock w)
              (clock w + 1000 * duration_seconds) 0 Hnf)
    as [rec [_ [_ [_ [_ Hr]]]]].
  unfold fetch_telegrams. cbv zeta. rewrite Hr. rewrite print_eq.
  cbn [fst snd clock]. split; [reflexivity|]. split.
  - apply fetch_loop_closes. exact Hr.
  - apply fetch_loop_overshoot; [exact Hok|lia].
Qed.

Lemma fetch_telegrams_window_witness :
  let w := world_with [heartbeat 127; mkRx 700 CanNoMsg;
                       mkRx 900 CanNoMsg; heartbeat 127] in
  snd (fetch_telegrams 1 w) = Ok tt /\
  clock w + 1000 * 1 <= clock (fst (fetch_telegrams 1 w))
    < clock w + 1000 * 1 + 1000.
Proof.
  intros w.
  apply (fetch_telegrams_window 1 w); [lia|reflexivity|reflexivity].
Defined.

(** X18: an exception of [channel.read] other than [CanNoMsg] abandons the
    window: the handler of line 230 names [canlib.CanlibException], which
    does not resolve, so [fetch_telegrams] raises [AttributeError] at that
    read, before the window has closed.  The heartbeats received so far
    were announced, but neither "Error fetching message" nor the total is
    printed, and the events behind the failure stay in the queue. *)
Theorem fetch_telegrams_read_failure (duration_seconds : Z) (w : World)
    (pre post : list RxEvent) (d : N) :
  rx w = pre ++ mkRx d CanlibException :: post ->
  no_failure pre = true ->
  total_wait pre < 1000 * duration_seconds ->
  fetch_telegrams duration_seconds w
  = (mkWorld (clock w + total_wait pre + Z.of_N d) post (tx_fail w)
       (tx_log w)
       (out w ++ FetchingCanMessages duration_seconds :: heartbeat_lines pre),
     Raise AttributeError).
Proof.
  intros Hrx Hpre Hlt. unfold fetch_telegrams. cbv zeta. rewrite Hrx.
  rewrite (fetch_loop_skips pre _ _ _ _ Hpre) by lia. cbv zeta.
  cbn [fetch_loop].
  replace (clock w + total_wait pre <? clock w + 1000 * duration_seconds)
    with true by (symmetry; apply Z.ltb_lt; lia).
  cbn. rewrite app_nil_r. reflexivity.
Qed.

Lemma fetch_telegrams_read_failure_witness :
  snd (fetch_telegrams 1 failure_in_window) = Raise AttributeError /\
  clock (fst (fetch_telegrams 1 failure_in_window)) = 710 /\
  out (fst (fetch_telegrams 1 failure_in_window))
    = [FetchingCanMessages 1; ReceivedHeartbeat 127].
Proof.
  rewrite (fetch_telegrams_read_failure 1 failure_in_window
             [heartbeat 127] [mkRx 900 CanNoMsg; heartbeat 127] 700%N);
    [|reflexivity|reflexivity|cbn; lia].
  repeat split.
Defined.

(** ** Motion controller: the drive that is ready *)

(** The observation window sends nothing, however it ends, and it ends
    normally when no read fails. *)
Lemma fetch_telegrams_sends_nothing (duration_seconds : Z) (w : World) :
  exists w' r,
    fetch_telegrams duration_seconds w = (w', r) /\
    tx_log w' = tx_log w /\
    (no_failure (rx w) = true -> r = Ok tt).
Proof.
  unfold fetch_telegrams. cbv zeta.
  destruct (f_result (fetch_loop (rx w) (clock w)
                        (clock w + 1000 * duration_seconds) 0))
    as [[]|e] eqn:Er.
  - rewrite print_eq. eexists. eexists.
    split; [reflexivity|]. split; reflexivity.
  - eexists. eexists. split; [reflexivity|]. split; [reflexivity|].
    intros Hnf.
    destruct (fetch_loop_counts (rx w) (clock w)
                (clock w + 1000 * duration_seconds) 0 Hnf)
      as [rec [_ [_ [_ [_ Hr]]]]].
    rewrite Hr in Er. discriminate Er.
Qed.

(** Lines 193-204 without [disable_after_motion]: one frame, the setpoint,
    whatever happens afterwards. *)
Lemma move_setpoint_frames (node_id speed movement_duration timeout_ms : Z)
    (w : World) :
  exists w' r,
    move_setpoint node_id speed false movement_duration timeout_ms w
      = (w', r) /\
    frames w' = frames w ++ [write_request node_id 0x60FF 0x00 speed] /\
    (hd false (tx_fail w) = false ->
     (0 < movement_duration -> no_failure (rx w) = true) ->
     r = Ok tt).
Proof.
  unfold move_setpoint. step_print.
  destruct (hd false (tx_fail w)) eqn:Htx.
  - erewrite bind_raise;
      [|rewrite sdo_write_access_eq by lia; cbn [tx_fail];
        rewrite Htx; reflexivity].
    eexists. eexists. split; [reflexivity|]. split.
    + unfold frames. cbn [tx_log]. rewrite map_app. reflexivity.
    + intros Hacc. discriminate Hacc.
  - step_write Htx.
    destruct (movement_duration >? 0) eqn:Ed; cbn [when].
    + apply Z.gtb_lt in Ed. rewrite bind_assoc. step_print.
      match goal with
      | |- context [bind (fetch_telegrams ?d) _ ?w0] =>
          destruct (fetch_telegrams_sends_nothing d w0)
            as [wf [rf [Ef [Lf Hf]]]]
      end.
      destruct rf as [[]|e].
      * step Ef. unfold ret. eexists. eexists.
        split; [reflexivity|]. split; [|reflexivity].
        unfold frames. rewrite Lf. cbn [tx_log]. rewrite map_app.
        reflexivity.
      * erewrite bind_raise; [|exact Ef]. eexists. eexists.
        split; [reflexivity|]. split.
        -- unfold frames. rewrite Lf. cbn [tx_log]. rewrite map_app.
           reflexivity.
        -- intros _ Hnf. apply Hf. apply Hnf. exact Ed.
    + erewrite bind_ok; [|reflexivity]. unfold ret. eexists. eexists.
      split; [reflexivity|]. split; [|reflexivity].
      unfold frames. cbn [tx_log]. rewrite map_app. reflexivity.
Qed.

(** X17: when the drive reports the requested ramps, mode 3 and a
    statusword that is 0x27 under the mask 0x6F, a call of
    [move_motor_in_profile_velocity] without [disable_after_motion] sends
    its four reads and then a single write, the velocity setpoint to 0x60FF;
    no command reaches the controlword, with or without an observation
    window, and however the call ends.  It returns normally when the
    channel accepts the setpoint and no read of the observation window
    fails. *)
Theorem move_on_ready_drive
    (node_id speed accel decel movement_duration timeout_ms v : Z)
    (w w1 w2 w3 w4 : World) :
  sdo_read_access node_id 0x6083 0x00 timeout_ms w = (w1, Ok (Some accel)) ->
  sdo_read_access node_id 0x6084 0x00 timeout_ms w1 = (w2, Ok (Some decel)) ->
  sdo_read_access node_id 0x6061 0x00 timeout_ms w2 = (w3, Ok (Some 3)) ->
  sdo_read_access node_id 0x6041 0x00 timeout_ms w3 = (w4, Ok (Some v)) ->
  Z.land v 0x6F = 0x27 ->
  exists w' r,
    move_motor_in_profile_velocity node_id speed accel decel false
      movement_duration timeout_ms w = (w', r) /\
    frames w' = frames w ++ [read_request node_id 0x6083 0x00;
                             read_request node_id 0x6084 0x00;
                             read_request node_id 0x6061 0x00;
                             read_request node_id 0x6041 0x00;
                             write_request node_id 0x60FF 0x00 speed] /\
    (hd false (tx_fail w4) = false ->
     (0 < movement_duration -> no_failure (rx w4) = true) ->
     r = Ok tt).
Proof.
  intros H1 H2 H3 H4 Hv.
  destruct (sdo_read_access_frames node_id 0x6083 timeout_ms w)
    as [w1' [r1 [E1 [F1 _]]]].
  destruct (sdo_read_access_frames node_id 0x6084 timeout_ms w1)
    as [w2' [r2 [E2 [F2 _]]]].
  destruct (sdo_read_access_frames node_id 0x6061 timeout_ms w2)
    as [w3' [r3 [E3 [F3 _]]]].
  destruct (sdo_read_access_frames node_id 0x6041 timeout_ms w3)
    as [w4' [r4 [E4 [F4 _]]]].
  rewrite H1 in E1. injection E1 as <- _.
  rewrite H2 in E2. injection E2 as <- _.
  rewrite H3 in E3. injection E3 as <- _.
  rewrite H4 in E4. injection E4 as <- _.
  assert (Hramps : move_ramps node_id accel decel timeout_ms w = (w2, Ok tt)).
  { unfold move_ramps. step H1. step H2.
    unfold py_ne. rewrite !Z.eqb_refl. reflexivity. }
  assert (Hmode : move_mode node_id timeout_ms w2 = (w3, Ok tt)).
  { unfold move_mode. step H3. reflexivity. }
  unfold move_motor_in_profile_velocity. step Hramps. step Hmode.
  unfold move_run. step H4.
  unfold not_enabled. change 0x0000006F with 0x6F. rewrite Hv.
  cbn [Z.eqb Pos.eqb negb when]. erewrite bind_ok; [|reflexivity].
  destruct (move_setpoint_frames node_id speed movement_duration timeout_ms w4)
    as [w' [r [Es [Fs Hr]]]].
  exists w', r. split; [exact Es|]. split; [|exact Hr].
  rewrite Fs, F4, F3, F2, F1, <- !app_assoc. reflexivity.
Qed.

Lemma move_on_ready_drive_witness :
  exists w',
    move_motor_in_profile_velocity 127 800 1000 1000 false 15 1000
      configured_drive = (w', Ok tt) /\
    frames w' = [read_request 127 0x6083 0x00; read_request 127 0x6084 0x00;
                 read_request 127 0x6061 0x00; read_request 127 0x6041 0x00;
                 write_request 127 0x60FF 0x00 800].
Proof.
  destruct (move_on_ready_drive 127 800 1000 1000 15 1000 0x0027
              configured_drive
              (fst (sdo_read_access 127 0x6083 0x00 1000 configured_drive))
              (fst (move_ramps 127 1000 1000 1000 configured_drive))
              (fst (move_mode 127 1000
                      (fst (move_ramps 127 1000 1000 1000
                              configured_drive))))
              (fst (sdo_read_access 127 0x6041 0x00 1000
                      (fst (move_mode 127 1000
                              (fst (move_ramps 127 1000 1000 1000
                                      configured_drive)))))))
    as [w' [r [E [F Hr]]]]; try (vm_compute; reflexivity).
  exists w'. split; [|exact F].
  rewrite E, Hr; [reflexivity|vm_compute; reflexivity|].
  intros _. vm_compute. reflexivity.
Defined.
